(** * The S3 console handlers of ChubaoFS (console/handler_s3.go)

    A shallow embedding of the request handlers of [console/handler_s3.go].
    Every handler is a function from the console configuration, the
    environment (the auth node, the AWS SDK and the object store behind it)
    and the incoming request to a [Run]: the ordered list of effects the
    handler performs (log lines, calls to the auth node and to the store,
    writes on the [http.ResponseWriter]) together with the way it ends, a
    normal return or a Go run-time panic. *)

From Stdlib Require Import ZArith String Ascii List Lia Bool.
From stdpp Require Import base option list gmap strings pretty.

Local Open Scope string_scope.
Local Open Scope Z_scope.
Local Open Scope list_scope.

(** ** Go values used by the handlers *)

(** A Go [error] is represented by its message. *)
Definition error := string.

(** What [json.Unmarshal] stores in a [map[string]interface{}]. *)
#[warnings="-register-all"]
Inductive JValue :=
| JNull
| JBool (b : bool)
| JNumber (literal : string)
| JString (s : string)
| JArray (items : list JValue)
| JObject (fields : list (string * JValue)).

(** [net/url.Values] and [net/http.Header]: a key maps to a list of values. *)
Abbreviation Values := (gmap string (list string)).

(** [mime/multipart.FileHeader]: [Open] yields the content or fails. *)
Record FileHeader := { Filename : string; Open : error + string }.

(** [mime/multipart.Form]. *)
Record Form := { Value : Values; File : gmap string (list FileHeader) }.

(** The parts of [*http.Request] this file reads.  [Body] is what
    [ioutil.ReadAll(r.Body)] yields: the bytes read and the read error, if
    any.  [MultipartForm] is the field as [r.ParseMultipartForm] leaves it
    ([None] is Go's nil, when the request carries no parsable form). *)
Record Request := {
  URLQuery : Values;
  Header : Values;
  Body : string * option error;
  MultipartForm : option Form
}.

(** The fields of [Console] this file reads. *)
Record Console := {
  consoleId : string;
  consoleKey : string;
  s3Region : string;
  s3Endpoint : string
}.

(** The two fields of the auth node's key info this file reads. *)
Record KeyInfo := { AccessKey : string; SecretKey : string }.

(** ** AWS SDK values *)

(** [credentials.NewStaticCredentials(id, secret, token)]. *)
Record Credentials := { credId : string; credSecret : string; credToken : string }.

(** [aws.Config], with the fields this file sets; a pointer field left
    unset is [None]. *)
Record Config := {
  Region : option string;
  Endpoint : option string;
  Creds : Credentials;
  DisableSSL : option bool;
  S3ForcePathStyle : option bool
}.

(** [*s3.S3] as built by [s3.New] from a session: the session's config. *)
Record S3 := { s3Config : Config }.

Record BucketInput := { bBucket : option string }.
Record ObjectInput := { oBucket : option string; oKey : option string }.
Record PutObjectInput := {
  poBucket : option string; poKey : option string; poBody : option string }.
Record ListObjectsV2Input := {
  loBucket : option string;
  loPrefix : option string;
  loStartAfter : option string;
  loMaxKeys : option Z
}.

(** [s3.PutBucketAclInput] and [s3.PutObjectAclInput], with the fields of the
    SDK structs that carry ACL content. *)
Record PutBucketAclInput := {
  pbaACL : option string;
  pbaAccessControlPolicy : option (list (string * string));
  pbaBucket : option string;
  pbaGrantFullControl : option string;
  pbaGrantRead : option string;
  pbaGrantReadACP : option string;
  pbaGrantWrite : option string;
  pbaGrantWriteACP : option string
}.
Record PutObjectAclInput := {
  poaACL : option string;
  poaAccessControlPolicy : option (list (string * string));
  poaBucket : option string;
  poaGrantFullControl : option string;
  poaGrantRead : option string;
  poaGrantReadACP : option string;
  poaGrantWrite : option string;
  poaGrantWriteACP : option string;
  poaKey : option string
}.

(** [*s3.Bucket] of a [ListBucketsOutput]; [time.Time] as Unix seconds. *)
Record S3Bucket := { sbName : option string; sbCreationDate : option Z }.
Record Owner := { ID : option string; DisplayName : option string }.
(** [*s3.Object] of a [ListObjectsV2Output]. *)
Record S3Object := {
  soKey : option string;
  soSize : option Z;
  soOwner : option Owner;
  soStorageClass : option string;
  soLastModified : option Z
}.
Record CommonPrefix := { cpPrefix : option string }.
Record ListObjectsV2Output := {
  looContents : list S3Object;
  looCommonPrefixes : list CommonPrefix;
  looKeyCount : option Z;
  looStartAfter : option string;
  looIsTruncated : option bool
}.
Record HeadObjectOutput := { hoContentLength : option Z }.
(** [GetObjectOutput.Body] is an [io.ReadCloser]: [None] is the nil
    interface, [Some data] a stream that yields [data]. *)
Record GetObjectOutput := { goBody : option string }.
Record PutObjectOutput := { ETag : option string }.
(** The store's ACL representation ([GetBucketAclOutput], [GetObjectAclOutput]). *)
Record AclOutput := { aclOwner : option Owner; aclGrants : list (string * string) }.

(** The calls this file makes on an [*s3.S3]. *)
Inductive S3Call :=
| CallListBuckets
| CallCreateBucket (i : BucketInput)
| CallDeleteBucket (i : BucketInput)
| CallWaitUntilBucketNotExists (i : BucketInput)
| CallPutObject (i : PutObjectInput)
| CallHeadObject (i : ObjectInput)
| CallGetObject (i : ObjectInput)
| CallDeleteObject (i : ObjectInput)
| CallListObjectsV2 (i : ListObjectsV2Input)
| CallGetBucketAcl (i : BucketInput)
| CallPutBucketAcl (i : PutBucketAclInput)
| CallGetObjectAcl (i : ObjectInput)
| CallPutObjectAcl (i : PutObjectAclInput).

(** ** The console's response types *)

Record Bucket := { Name : string; CreateTime : Z }.
Record Object := {
  Size : Z;
  OwnerId : string;
  OwnerName : string;
  ObjectName : string;
  StorageClass : string;
  LastModified : option Z
}.
Record ObjectList := {
  KeyCount : Z;
  StartAfter : string;
  IsTruncated : bool;
  Objects : list Object;
  Directories : list (option string)
}.

Inductive Payload :=
| PBuckets (l : list Bucket)
| PObjectList (l : ObjectList)
| PAcl (a : AclOutput).

(** The response envelope of the console. *)
Inductive Envelope :=
| SuccessEnvelope
| ErrorEnvelope (msg : string)
| DataEnvelope (data : Payload).

(** ** Effects *)

Inductive LogLevel := LogError | LogInfo.

Inductive Event :=
| EvLog (level : LogLevel) (format : string) (args : list string)
| EvPrintln (v : Values)
| EvAdminGetCaps (id key userId : string)
| EvNewSession (cfg : Config)
| EvS3 (client : S3) (call : S3Call)
| EvRespond (e : Envelope)
| EvWriteHeader (status : Z)
| EvHeaderSet (key value : string)
| EvWrite (data : string)
| EvClose (what : string).

Inductive Outcome (A : Type) :=
| Returned (a : A)
| Panicked (reason : string).
Arguments Returned {A} a.
Arguments Panicked {A} reason.

(** A run: the effects in the order they happen, and how the code ends. *)
Definition Run (A : Type) : Type := list Event * Outcome A.

Definition trace {A} (m : Run A) : list Event := fst m.
Definition outcome {A} (m : Run A) : Outcome A := snd m.

#[global] Instance Run_ret : MRet Run := fun A a => ([], Returned a).
#[global] Instance Run_bind : MBind Run := fun A B f m =>
  match m with
  | (t, Returned a) => let '(t', o) := f a in ((t ++ t')%list, o)
  | (t, Panicked p) => (t, Panicked p)
  end.

Definition emit (e : Event) : Run unit := ([e], Returned tt).
Definition panic {A} (reason : string) : Run A := ([], Panicked reason).

(** [defer f()]: the deferred call runs when the rest of the function is
    over, whether it returned or panicked. *)
Definition defer {A} (e : Event) (rest : Run A) : Run A :=
  ((trace rest ++ [e])%list, outcome rest).

(** ** strconv *)

Inductive NumError := ErrSyntax | ErrRange.

Definition maxUint64 : Z := 2 ^ 64 - 1.

(** The value of a decimal digit; [None] for every other byte.  In base 10 a
    letter is a digit of value at least 10, which [ParseUint] refuses like
    any other byte. *)
Definition digit10 (c : ascii) : option Z :=
  let n := Z.of_nat (nat_of_ascii c) in
  if (48 <=? n) && (n <=? 57) then Some (n - 48) else None.

(** The loop of [strconv.ParseUint(s, 10, 64)] over the bytes of [s], from
    the accumulator [n]. *)
Fixpoint ParseUint_loop (s : string) (n : Z) : Z * option NumError :=
  match s with
  | EmptyString => (n, None)
  | String c s' =>
      match digit10 c with
      | None => (0, Some ErrSyntax)
      | Some d =>
          if n >=? maxUint64 / 10 + 1 then (maxUint64, Some ErrRange)
          else
            let n := n * 10 in
            let n1 := (n + d) mod 2 ^ 64 in
            if (n1 <? n) || (n1 >? maxUint64) then (maxUint64, Some ErrRange)
            else ParseUint_loop s' n1
      end
  end.

(** [strconv.ParseUint(s, 10, 64)]. *)
Definition ParseUint (s : string) : Z * option NumError :=
  match s with
  | EmptyString => (0, Some ErrSyntax)
  | _ => ParseUint_loop s 0
  end.

(** [strconv.ParseInt(s, 10, 64)]: on a syntax error the value is 0, on a
    range error the nearest bound of int64. *)
Definition ParseInt (s : string) : Z * option NumError :=
  match s with
  | EmptyString => (0, Some ErrSyntax)
  | String c s' =>
      let '(neg, digits) :=
        if Ascii.eqb c "+" then (false, s')
        else if Ascii.eqb c "-" then (true, s')
        else (false, s) in
      match ParseUint digits with
      | (_, Some ErrSyntax) => (0, Some ErrSyntax)
      | (un, _) =>
          let cutoff := 2 ^ 63 in
          if negb neg && (un >=? cutoff) then (cutoff - 1, Some ErrRange)
          else if neg && (un >? cutoff) then (- cutoff, Some ErrRange)
          else (if neg then - un else un, None)
      end
  end.

(** [strconv.FormatInt(n, 10)]. *)
Definition FormatInt (n : Z) : string := pretty n.

Definition NumError_string (e : NumError) : string :=
  match e with
  | ErrSyntax => "invalid syntax"
  | ErrRange => "value out of range"
  end.

(** ** The environment of the handlers

    What this file calls and does not define: the JSON decoder, the auth
    node, the AWS session constructor and the object store, each as the
    answer it gives to a call, and the package constant
    [S3ListObjectsMaxKeys], which is declared in another file of package
    console.  A handler issues each store call at most once per request, so
    an answer that depends on the call alone loses nothing.

    [json_Unmarshal body] is [json.Unmarshal(body, &req)] for a nil
    [req map[string]interface{}]: [Some m] when the call returns nil and
    leaves [req = m] (the empty map for the JSON text null), [None] when
    it returns an error, which leaves [req] nil. *)
Record Env := {
  S3ListObjectsMaxKeys : string;
  json_Unmarshal : string -> option (gmap string JValue);
  auth_AdminGetCaps : string -> string -> string -> error + KeyInfo;
  session_NewSession : Config -> option error;
  s3_ListBuckets : S3 -> error + list S3Bucket;
  s3_CreateBucket : S3 -> BucketInput -> option error;
  s3_DeleteBucket : S3 -> BucketInput -> option error;
  s3_WaitUntilBucketNotExists : S3 -> BucketInput -> option error;
  s3_PutObject : S3 -> PutObjectInput -> error + PutObjectOutput;
  s3_HeadObject : S3 -> ObjectInput -> error + HeadObjectOutput;
  s3_GetObject : S3 -> ObjectInput -> option GetObjectOutput * option error;
  s3_DeleteObject : S3 -> ObjectInput -> option error;
  s3_ListObjectsV2 : S3 -> ListObjectsV2Input -> error + ListObjectsV2Output;
  s3_GetBucketAcl : S3 -> BucketInput -> error + AclOutput;
  s3_PutBucketAcl : S3 -> PutBucketAclInput -> option error;
  s3_GetObjectAcl : S3 -> ObjectInput -> error + AclOutput;
  s3_PutObjectAcl : S3 -> PutObjectAclInput -> option error
}.

(** ** Go primitives *)

Definition nilPanic : string :=
  "runtime error: invalid memory address or nil pointer dereference".

(** [*p] *)
Definition deref {A} (p : option A) : Run A :=
  match p with
  | Some a => mret a
  | None => panic nilPanic
  end.

(** [l[0]] *)
Definition index0 {A} (l : list A) : Run A :=
  match l with
  | a :: _ => mret a
  | [] => panic "runtime error: index out of range [0] with length 0"
  end.

(** [v.(string)] on the result of a map index: a missing key and a JSON null
    are both the nil interface. *)
Definition assertString (v : option JValue) : Run string :=
  match v with
  | Some (JString s) => mret s
  | _ => panic "interface conversion: interface {} is not string"
  end.

(** [h.Get(key)] for a canonical [key]. *)
Definition HeaderGet (h : Values) (key : string) : string :=
  match h !! key with
  | Some (v :: _) => v
  | _ => ""
  end.

(** [aws.StringValue], [aws.Int64Value], [aws.BoolValue] *)
Definition StringValue (p : option string) : string := default "" p.
Definition Int64Value (p : option Z) : Z := default 0 p.
Definition BoolValue (p : option bool) : bool := default false p.

Definition LogErrorf (format : string) (args : list string) : Run unit :=
  emit (EvLog LogError format args).
Definition LogInfof (format : string) (args : list string) : Run unit :=
  emit (EvLog LogInfo format args).

(** Modelled from the spec: [writeErrorResponse], [writeSuccessResponse] and
    [writeDataResponse] are defined in another file of package console; each
    writes the envelope the spec gives for it (section 6) on the response
    writer. *)
Definition writeErrorResponse (msg : string) : Run unit :=
  emit (EvRespond (ErrorEnvelope msg)).
Definition writeSuccessResponse : Run unit :=
  emit (EvRespond SuccessEnvelope).
Definition writeDataResponse (data : Payload) : Run unit :=
  emit (EvRespond (DataEnvelope data)).

(** The text after the last dot of [s], as [fns[len(fns)-1]] of
    [strings.Split(s, ".")]. *)
Fixpoint lastSegment (s acc : string) : string :=
  match s with
  | EmptyString => acc
  | String c s' =>
      if Ascii.eqb c "." then lastSegment s' ""
      else lastSegment s' (acc +:+ String c "")
  end.

(** [getCaller], given the name the runtime reports for the calling
    function. *)
Definition getCaller (fn : string) : string := lastSegment fn "".

(** The runtime's name of a method of [*Console]. *)
Definition methodName (m : string) : string :=
  "github.com/chubaofs/chubaofs/console.(" +:+ "*Console)." +:+ m.

(** ** The handlers *)

Section Handlers.

Variable en : Env.

(** Calls that leave the process: each one is recorded, then answered by
    the environment. *)
Definition AdminGetCaps (id key userId : string) : Run (error + KeyInfo) :=
  emit (EvAdminGetCaps id key userId);;
  mret (auth_AdminGetCaps en id key userId).

Definition NewSession (cfg : Config) : Run (option error) :=
  emit (EvNewSession cfg);; mret (session_NewSession en cfg).

Definition s3call {A} (s3Client : S3) (call : S3Call) (answer : A) : Run A :=
  emit (EvS3 s3Client call);; mret answer.

Definition ListBuckets (cl : S3) :=
  s3call cl CallListBuckets (s3_ListBuckets en cl).
Definition CreateBucket (cl : S3) (i : BucketInput) :=
  s3call cl (CallCreateBucket i) (s3_CreateBucket en cl i).
Definition DeleteBucket (cl : S3) (i : BucketInput) :=
  s3call cl (CallDeleteBucket i) (s3_DeleteBucket en cl i).
Definition WaitUntilBucketNotExists (cl : S3) (i : BucketInput) :=
  s3call cl (CallWaitUntilBucketNotExists i) (s3_WaitUntilBucketNotExists en cl i).
Definition PutObject (cl : S3) (i : PutObjectInput) :=
  s3call cl (CallPutObject i) (s3_PutObject en cl i).
Definition HeadObject (cl : S3) (i : ObjectInput) :=
  s3call cl (CallHeadObject i) (s3_HeadObject en cl i).
Definition GetObject (cl : S3) (i : ObjectInput) :=
  s3call cl (CallGetObject i) (s3_GetObject en cl i).
Definition DeleteObject (cl : S3) (i : ObjectInput) :=
  s3call cl (CallDeleteObject i) (s3_DeleteObject en cl i).
Definition ListObjectsV2 (cl : S3) (i : ListObjectsV2Input) :=
  s3call cl (CallListObjectsV2 i) (s3_ListObjectsV2 en cl i).
Definition GetBucketAcl (cl : S3) (i : BucketInput) :=
  s3call cl (CallGetBucketAcl i) (s3_GetBucketAcl en cl i).
Definition PutBucketAcl (cl : S3) (i : PutBucketAclInput) :=
  s3call cl (CallPutBucketAcl i) (s3_PutBucketAcl en cl i).
Definition GetObjectAcl (cl : S3) (i : ObjectInput) :=
  s3call cl (CallGetObjectAcl i) (s3_GetObjectAcl en cl i).
Definition PutObjectAcl (cl : S3) (i : PutObjectAclInput) :=
  s3call cl (CallPutObjectAcl i) (s3_PutObjectAcl en cl i).

(** [var req map[string]interface{}; json.Unmarshal(body, &req)], the error
    dropped as the source drops it. *)
Definition Unmarshal (body : string) : gmap string JValue :=
  default ∅ (json_Unmarshal en body).

(** [getS3Keys]: the key pair of the user named by the query parameter
    userId, or an error. *)
Definition getS3Keys (c : Console) (r : Request)
  : Run (error + (string * string)) :=
  let params := URLQuery r in
  let userId := default [] (params !! "userId") in
  uid ← index0 userId;
  if (String.length uid =? 0)%nat then
    LogErrorf "getS3Keys : user id is empty" [];;
    mret (inl "can not get user id from request")
  else
    keyInfo ← AdminGetCaps (consoleId c) (consoleKey c) uid;
    match keyInfo with
    | inl err =>
        LogErrorf "getS3Keys : get access key and secret key from auth node" [];;
        mret (inl err)
    | inr keyInfo => mret (inr (AccessKey keyInfo, SecretKey keyInfo))
    end.

Definition getS3Client (c : Console) (r : Request) : Run (error + S3) :=
  keys ← getS3Keys c r;
  match keys with
  | inl err =>
      LogErrorf "getS3Client : get user info failed cause : %s" [err];;
      mret (inl err)
  | inr (accessKey, secretKey) =>
      let cfg := {|
        Region := Some (s3Region c);
        Endpoint := Some (s3Endpoint c);
        Creds := {| credId := accessKey; credSecret := secretKey; credToken := "23" |};
        DisableSSL := None;
        S3ForcePathStyle := None |} in
      err ← NewSession cfg;
      match err with
      | Some err =>
          LogErrorf "getS3Client : create s3 client session failed cause : %s" [err];;
          mret (inl err)
      | None => mret (inr {| s3Config := cfg |})
      end
  end.

(** The loop of [getBucketListHandler] over [response.Buckets]. *)
Fixpoint bucketsOf (l : list S3Bucket) : Run (list Bucket) :=
  match l with
  | [] => mret []
  | b :: l' =>
      name ← deref (sbName b);
      date ← deref (sbCreationDate b);
      rest ← bucketsOf l';
      mret ({| Name := name; CreateTime := date |} :: rest)
  end.

Definition getBucketListHandler (c : Console) (r : Request) : Run unit :=
  s3Client ← getS3Client c r;
  match s3Client with
  | inl err =>
      LogErrorf "getBucketListHandler : Get s3 client failed cause : %s" [err];;
      writeErrorResponse "Get s3 client failed"
  | inr s3Client =>
      response ← ListBuckets s3Client;
      match response with
      | inl err =>
          LogErrorf "getBucketListHandler : list buckets failed cause : %s" [err];;
          writeErrorResponse "List buckets failed"
      | inr response =>
          buckets ← bucketsOf response;
          writeDataResponse (PBuckets buckets)
      end
  end.

Definition createBucketHandler (c : Console) (r : Request) : Run unit :=
  let '(body, err) := Body r in
  let req := Unmarshal body in
  match err with
  | Some err =>
      LogErrorf "createBucketHandler : get bucket name failed cause : %s" [err];;
      writeErrorResponse "Create bucket failed"
  | None =>
      bucketName ← assertString (req !! "bucketName");
      s3Client ← getS3Client c r;
      match s3Client with
      | inl err =>
          LogErrorf "createBucketHandler : get s3 client failed while create bucket %s cause : %s"
            [bucketName; err];;
          writeErrorResponse "Get s3 client failed"
      | inr s3Client =>
          err ← CreateBucket s3Client {| bBucket := Some bucketName |};
          match err with
          | Some err =>
              LogErrorf "createBucketHandler : create bucket %s failed cause : %s"
                [bucketName; err];;
              writeErrorResponse "Create bucket failed"
          | None =>
              LogInfof "Create bucket %s success" [bucketName];;
              writeSuccessResponse
          end
      end
  end.

Definition deleteBucketHandler (c : Console) (r : Request) : Run unit :=
  let '(body, err) := Body r in
  let req := Unmarshal body in
  match err with
  | Some err =>
      LogErrorf "deleteBucketHandler : get bucket name failed cause : %s" [err];;
      writeErrorResponse "Get bucket name failed"
  | None =>
      bucketName ← assertString (req !! "bucketName");
      s3Client ← getS3Client c r;
      match s3Client with
      | inl err =>
          LogErrorf "deleteBucketHandler : get s3 client failed while deleting bucket %s cause : %s"
            [bucketName; err];;
          writeErrorResponse "Get s3 client failed"
      | inr s3Client =>
          err ← DeleteBucket s3Client {| bBucket := Some bucketName |};
          match err with
          | Some err =>
              LogErrorf "deleteBucketHandler : delete bucket %s failed cause : %s"
                [bucketName; err];;
              writeErrorResponse "Delete bucket failed"
          | None =>
              (* err = s3Client.WaitUntilBucketNotExists(...): assigned, never read *)
              _ ← WaitUntilBucketNotExists s3Client {| bBucket := Some bucketName |};
              LogInfof "Delete bucket %s success" [bucketName];;
              writeSuccessResponse
          end
      end
  end.

(** [r.FormFile(key)] once [r.MultipartForm] is set. *)
Definition FormFile (form : Form) (key : string) : error + string :=
  match File form !! key with
  | Some (fh :: _) => Open fh
  | _ => inl "http: no such file"
  end.

Definition putObjectHandler (c : Console) (r : Request) : Run unit :=
  form ← deref (MultipartForm r);
  emit (EvPrintln (Value form));;
  bucketName ← index0 (default [] (Value form !! "bucketName"));
  objectName ← index0 (default [] (Value form !! "objectName"));
  match FormFile form "file" with
  | inl err =>
      LogErrorf "putObjectHandler : get file from request failed cause : %s" [err];;
      writeErrorResponse "Put object failed"
  | inr file =>
      defer (EvClose "file")
        (s3Client ← getS3Client c r;
         match s3Client with
         | inl err =>
             LogErrorf "putObjectHandler : Get s3 client failed while putting object %s cause : %s"
               [objectName; err];;
             writeErrorResponse "Get s3 client failed"
         | inr s3Client =>
             output ← PutObject s3Client
               {| poBucket := Some bucketName; poKey := Some objectName;
                  poBody := Some file |};
             match output with
             | inl err =>
                 LogErrorf "putObjectHandler : put object %s to bucket %s failed cause : %s"
                   [objectName; bucketName; err];;
                 writeErrorResponse "Put object failed"
             | inr output =>
                 LogInfof "Put object %s success, and ETag : %s"
                   [objectName; StringValue (ETag output)];;
                 writeSuccessResponse
             end
         end)
  end.

Definition getObjectHandler (c : Console) (r : Request) : Run unit :=
  let '(body, err) := Body r in
  let req := Unmarshal body in
  match err with
  | Some err =>
      LogErrorf "getObjectHandler : Unmarshal request body failed cause : %s" [err];;
      writeErrorResponse "Get object parameters failed"
  | None =>
      bucketName ← assertString (req !! "bucketName");
      objectName ← assertString (req !! "objectName");
      s3Client ← getS3Client c r;
      match s3Client with
      | inl err =>
          LogErrorf "getObjectHandler : Get s3 client failed while getting object cause : %s" [err];;
          writeErrorResponse "Get s3 client failed"
      | inr s3Client =>
          (* check object is whether existed *)
          headOutput ← HeadObject s3Client
            {| oBucket := Some bucketName; oKey := Some objectName |};
          match headOutput with
          | inl err =>
              LogErrorf "getObjectHandler : check object %s is whether existed failed cause : %s"
                [objectName; err]
          | inr headOutput =>
              let size := hoContentLength headOutput in
              '(getObjectOutput, err) ← GetObject s3Client
                {| oBucket := Some bucketName; oKey := Some objectName |};
              getObjectOutput ← deref getObjectOutput;
              (* defer responseData.Close(): the method value of a nil
                 interface panics where the defer statement stands *)
              responseData ← deref (goBody getObjectOutput);
              defer (EvClose "responseData")
                (match err with
                 | Some err =>
                     LogErrorf "getObjectHandler : get object %s from bucket %s failed cause : %s"
                       [objectName; bucketName; err];;
                     writeErrorResponse "Get object failed"
                 | None =>
                     emit (EvWriteHeader 200);;
                     emit (EvHeaderSet "Content-Type" (HeaderGet (Header r) "Content-Type"));;
                     emit (EvHeaderSet "Content-Disposition"
                             ("attachment; filename=" +:+ objectName));;
                     size ← deref size;
                     emit (EvHeaderSet "Content-Length" (FormatInt size));;
                     emit (EvWrite responseData)
                 end)
          end
      end
  end.

Definition deleteObjectHandler (c : Console) (r : Request) : Run unit :=
  let '(body, err) := Body r in
  let req := Unmarshal body in
  match err with
  | Some err =>
      LogErrorf "deleteObjectHandler : Unmarshal request body failed cause : %s" [err];;
      writeErrorResponse "Get object parameters from request failed"
  | None =>
      bucketName ← assertString (req !! "bucketName");
      objectName ← assertString (req !! "objectName");
      s3Client ← getS3Client c r;
      match s3Client with
      | inl err =>
          LogErrorf "deleteObjectHandler : Get s3 client failed while deleting object cause : %s" [err];;
          writeErrorResponse "Get s3 client failed"
      | inr s3Client =>
          err ← DeleteObject s3Client
            {| oBucket := Some bucketName; oKey := Some objectName |};
          match err with
          | Some err =>
              LogErrorf "deleteObjectHandler : delete object %s from bucket %s failed cause : %s"
                [objectName; bucketName; err];;
              writeErrorResponse "Delete object failed"
          | None =>
              LogInfof "Delete object %s success" [objectName];;
              writeSuccessResponse
          end
      end
  end.

(** The loop of [getObjectListHandler] over [output.Contents]. *)
Fixpoint objectsOf (l : list S3Object) : Run (list Object) :=
  match l with
  | [] => mret []
  | o :: l' =>
      owner ← deref (soOwner o);
      rest ← objectsOf l';
      mret ({| Size := Int64Value (soSize o);
               OwnerId := StringValue (ID owner);
               OwnerName := StringValue (DisplayName owner);
               ObjectName := StringValue (soKey o);
               StorageClass := StringValue (soStorageClass o);
               LastModified := soLastModified o |} :: rest)
  end.

(** The max-keys value [getObjectListHandler] hands to [input.SetMaxKeys]:
    the parsed constant, overwritten by the outcome of parsing the request's
    maxKeys when that string is not empty; a parse error is logged (by the
    text of its [Err] field) and nothing else. *)
Definition maxKeysOf (maxKeys : string) : Run Z :=
  let maxKeysInt := fst (ParseInt (S3ListObjectsMaxKeys en)) in
  if (0 <? String.length maxKeys)%nat then
    let '(maxKeysInt, err) := ParseInt maxKeys in
    match err with
    | Some err =>
        LogErrorf "Parse max keys from request failed cause : %s" [NumError_string err];;
        mret maxKeysInt
    | None => mret maxKeysInt
    end
  else mret maxKeysInt.

Definition getObjectListHandler (c : Console) (r : Request) : Run unit :=
  let '(body, err) := Body r in
  let req := Unmarshal body in
  match err with
  | Some err =>
      LogErrorf "getObjectListHandler : Unmarshal request body failed cause : %s" [err];;
      writeErrorResponse "Get bucket name from request failed"
  | None =>
      prefix ← assertString (req !! "prefix");
      maxKeys ← assertString (req !! "maxKeys");
      startAfter ← assertString (req !! "startAfter");
      bucketName ← assertString (req !! "bucketName");
      s3Client ← getS3Client c r;
      match s3Client with
      | inl err =>
          LogErrorf "getObjectListHandler : Get s3 client failed while deleting object cause : %s" [err];;
          writeErrorResponse "Get s3 client failed"
      | inr s3Client =>
          maxKeysInt ← maxKeysOf maxKeys;
          let input := {|
            loBucket := Some bucketName;
            loPrefix := if (0 <? String.length prefix)%nat then Some prefix else None;
            loStartAfter :=
              if (0 <? String.length startAfter)%nat then Some startAfter else None;
            loMaxKeys := Some maxKeysInt |} in
          output ← ListObjectsV2 s3Client input;
          match output with
          | inl err =>
              LogErrorf "getObjectListHandler : get object list from bucket %s failed cause : %s"
                [bucketName; err];;
              writeErrorResponse "Delete object failed"
          | inr output =>
              objects ← objectsOf (looContents output);
              let directories := map cpPrefix (looCommonPrefixes output) in
              let objectList := {|
                KeyCount := Int64Value (looKeyCount output);
                StartAfter := StringValue (looStartAfter output);
                IsTruncated := BoolValue (looIsTruncated output);
                Objects := objects;
                Directories := directories |} in
              writeDataResponse (PObjectList objectList)
          end
      end
  end.

Definition createObjectUrlHandler (c : Console) (r : Request) : Run unit := mret tt.
Definition getObjectUrlHandler (c : Console) (r : Request) : Run unit := mret tt.
Definition listFolderHandler (c : Console) (r : Request) : Run unit := mret tt.
Definition deleteFolderHandler (c : Console) (r : Request) : Run unit := mret tt.

(** The loop of [prepareHandler] over [args]: the first name that is not a
    key of [req]. *)
Fixpoint missingParam (req : gmap string JValue) (args : list string) : option string :=
  match args with
  | [] => None
  | arg :: args' =>
      match req !! arg with
      | None => Some arg
      | Some _ => missingParam req args'
      end
  end.

Definition prepareConfig : Config := {|
  Region := Some "cfs_default";
  Endpoint := Some "http://127.0.0.1:32793";
  Creds := {| credId := "YqgyNwuMUielu8pN";
              credSecret := "TDp9RplFfEG9VwGHvtKIV7357aPM3OvZ";
              credToken := "" |};
  DisableSSL := Some false;
  S3ForcePathStyle := Some true |}.

Definition prepareHandler (r : Request) (args : list string)
  : Run (error + (S3 * gmap string JValue)) :=
  let '(body, err) := Body r in
  match err with
  | Some err => mret (inl ("read request body failed cause by [" +:+ err +:+ "]"))
  | None =>
      let req := Unmarshal body in
      match missingParam req args with
      | Some arg => mret (inl ("can't find param [" +:+ arg +:+ "]"))
      | None =>
          err ← NewSession prepareConfig;
          match err with
          | Some err =>
              mret (inl ("create s3 client session failed cause by [" +:+ err +:+ "]"))
          | None => mret (inr ({| s3Config := prepareConfig |}, req))
          end
      end
  end.

Definition createFolderHandler (c : Console) (r : Request) : Run unit :=
  let failedResponseInfo := "create folder failed!!!" in
  prepared ← prepareHandler r ["bucketName"; "folderName"; "parentName"];
  match prepared with
  | inl err =>
      LogErrorf "%s(): %s" [getCaller (methodName "createFolderHandler"); err];;
      writeErrorResponse failedResponseInfo
  | inr (s3Client, req) =>
      bucketName ← assertString (req !! "bucketName");
      folderName ← assertString (req !! "folderName");
      parentName ← assertString (req !! "parentName");
      output ← PutObject s3Client
        {| poBucket := Some bucketName; poKey := Some (parentName +:+ folderName);
           poBody := None |};
      match output with
      | inl err =>
          LogErrorf "%s(): create folder failed cause by [%v]"
            [getCaller (methodName "createFolderHandler"); err];;
          writeErrorResponse failedResponseInfo
      | inr _ => writeSuccessResponse
      end
  end.

Definition getBucketAclHandler (c : Console) (r : Request) : Run unit :=
  let failedResponseInfo := "get bucket acl failed!!!" in
  prepared ← prepareHandler r ["bucketName"];
  match prepared with
  | inl err =>
      LogErrorf "%s(): %s" [getCaller (methodName "getBucketAclHandler"); err];;
      writeErrorResponse failedResponseInfo
  | inr (s3Client, req) =>
      bucketName ← assertString (req !! "bucketName");
      output ← GetBucketAcl s3Client {| bBucket := Some bucketName |};
      match output with
      | inl err =>
          LogErrorf "%s(): get bucket acl failed cause by [%v]"
            [getCaller (methodName "getBucketAclHandler"); err];;
          writeErrorResponse failedResponseInfo
      | inr output => writeDataResponse (PAcl output)
      end
  end.

Definition setBucketAclHandler (c : Console) (r : Request) : Run unit :=
  let failedResponseInfo := "set bucket acl failed!!!" in
  prepared ← prepareHandler r ["bucketName"];
  match prepared with
  | inl err =>
      LogErrorf "%s(): %s" [getCaller (methodName "setBucketAclHandler"); err];;
      writeErrorResponse failedResponseInfo
  | inr (s3Client, req) =>
      bucketName ← assertString (req !! "bucketName");
      let input := {|
        pbaACL := None;
        pbaAccessControlPolicy := None;
        pbaBucket := Some bucketName;
        pbaGrantFullControl := None;
        pbaGrantRead := None;
        pbaGrantReadACP := None;
        pbaGrantWrite := None;
        pbaGrantWriteACP := None |} in
      err ← PutBucketAcl s3Client input;
      match err with
      | Some err =>
          LogErrorf "%s(): set bucket acl failed cause by [%v]"
            [getCaller (methodName "setBucketAclHandler"); err];;
          writeErrorResponse failedResponseInfo
      | None => writeSuccessResponse
      end
  end.

Definition getObjectAclHandler (c : Console) (r : Request) : Run unit :=
  let failedResponseInfo := "get object acl failed!!!" in
  prepared ← prepareHandler r ["bucketName"; "objectName"];
  match prepared with
  | inl err =>
      LogErrorf "%s(): %s" [getCaller (methodName "getObjectAclHandler"); err];;
      writeErrorResponse failedResponseInfo
  | inr (s3Client, req) =>
      bucketName ← assertString (req !! "bucketName");
      objectName ← assertString (req !! "objectName");
      output ← GetObjectAcl s3Client
        {| oBucket := Some bucketName; oKey := Some objectName |};
      match output with
      | inl err =>
          LogErrorf "%s(): get object acl failed cause by [%v]"
            [getCaller (methodName "getObjectAclHandler"); err];;
          writeErrorResponse failedResponseInfo
      | inr output => writeDataResponse (PAcl output)
      end
  end.

Definition setObjectAclHandler (c : Console) (r : Request) : Run unit :=
  let failedResponseInfo := "set object acl failed!!!" in
  prepared ← prepareHandler r ["bucketName"; "objectName"];
  match prepared with
  | inl err =>
      LogErrorf "%s(): %s" [getCaller (methodName "setObjectAclHandler"); err];;
      writeErrorResponse failedResponseInfo
  | inr (s3Client, req) =>
      bucketName ← assertString (req !! "bucketName");
      objectName ← assertString (req !! "objectName");
      let input := {|
        poaACL := None;
        poaAccessControlPolicy := None;
        poaBucket := Some bucketName;
        poaGrantFullControl := None;
        poaGrantRead := None;
        poaGrantReadACP := None;
        poaGrantWrite := None;
        poaGrantWriteACP := None;
        poaKey := Some objectName |} in
      err ← PutObjectAcl s3Client input;
      match err with
      | Some err =>
          LogErrorf "%s(): set object acl failed cause by [%v]"
            [getCaller (methodName "setObjectAclHandler"); err];;
          writeErrorResponse failedResponseInfo
      | None => writeSuccessResponse
      end
  end.

End Handlers.

(** ** Reading a trace *)

(** The calls to the object store, with the client that made them, in
    order. *)
Definition storeCalls (t : list Event) : list (S3 * S3Call) :=
  omap (fun e => match e with EvS3 cl call => Some (cl, call) | _ => None end) t.

(** The client sessions built. *)
Definition sessions (t : list Event) : list Config :=
  omap (fun e => match e with EvNewSession cfg => Some cfg | _ => None end) t.

(** The envelopes written. *)
Definition envelopes (t : list Event) : list Envelope :=
  omap (fun e => match e with EvRespond env => Some env | _ => None end) t.

(** Whether the event writes on the [http.ResponseWriter]: an envelope, a
    status line, a header or body bytes. *)
Definition writesResponse (e : Event) : bool :=
  match e with
  | EvRespond _ | EvWriteHeader _ | EvHeaderSet _ _ | EvWrite _ => true
  | _ => false
  end.

(** *** net/http's response writer

    What reaches the client, by the contract of [http.ResponseWriter]:
    [WriteHeader] sends the status line with the header map as it stands at
    that moment, a first [Write] without one implies [WriteHeader(200)], and
    a change of the header map after that has no effect. *)
Record ResponseWriter := {
  handlerHeader : gmap string string;
  sentHead : option (Z * gmap string string);
  sentBody : list string
}.

Definition newResponse : ResponseWriter :=
  {| handlerHeader := ∅; sentHead := None; sentBody := [] |}.

Definition commit (status : Z) (w : ResponseWriter) : ResponseWriter :=
  match sentHead w with
  | Some _ => w
  | None =>
      {| handlerHeader := handlerHeader w;
         sentHead := Some (status, handlerHeader w);
         sentBody := sentBody w |}
  end.

Definition stepResponse (w : ResponseWriter) (e : Event) : ResponseWriter :=
  match e with
  | EvHeaderSet k v =>
      {| handlerHeader := <[k := v]> (handlerHeader w);
         sentHead := sentHead w;
         sentBody := sentBody w |}
  | EvWriteHeader status => commit status w
  | EvWrite data =>
      let w := commit 200 w in
      {| handlerHeader := handlerHeader w;
         sentHead := sentHead w;
         sentBody := sentBody w ++ [data] |}
  | _ => w
  end.

Definition response (t : list Event) : ResponseWriter :=
  fold_left stepResponse t newResponse.

(** The headers of the response sent, as far as the handler supplied them. *)
Definition sentHeaders (t : list Event) : gmap string string :=
  match sentHead (response t) with
  | Some (_, h) => h
  | None => ∅
  end.

(** The writes on the response writer, in order. *)
Definition responseWrites (t : list Event) : list Event :=
  List.filter writesResponse t.

(** Events that stay inside the console and the auth node. *)
Definition quiet (e : Event) : bool :=
  match e with
  | EvLog _ _ _ | EvAdminGetCaps _ _ _ => true
  | _ => false
  end.

(** Events that reach neither the store nor the response writer. *)
Definition internal (e : Event) : bool :=
  match e with
  | EvLog _ _ _ | EvAdminGetCaps _ _ _ | EvNewSession _ => true
  | _ => false
  end.

(** Whether an error is logged with the given format string. *)
Definition loggedError (format : string) (t : list Event) : bool :=
  existsb (fun e => match e with
                    | EvLog LogError f _ => String.eqb f format
                    | _ => false
                    end) t.

(** ** Families of handlers *)

Definition Handler : Type := Env -> Console -> Request -> Run unit.

(** The handlers that build their client from the keys of the requesting
    user ([getS3Client]). *)
Definition perUserHandlers : list Handler :=
  [getBucketListHandler; createBucketHandler; deleteBucketHandler;
   putObjectHandler; getObjectHandler; deleteObjectHandler;
   getObjectListHandler].

(** The handlers that decode a JSON body themselves, each with the format
    of the log line and the message of the envelope of the branch that
    follows [ioutil.ReadAll]. *)
Definition jsonBodyHandlers : list (Handler * string * string) :=
  [(createBucketHandler,
    "createBucketHandler : get bucket name failed cause : %s",
    "Create bucket failed");
   (deleteBucketHandler,
    "deleteBucketHandler : get bucket name failed cause : %s",
    "Get bucket name failed");
   (getObjectHandler,
    "getObjectHandler : Unmarshal request body failed cause : %s",
    "Get object parameters failed");
   (deleteObjectHandler,
    "deleteObjectHandler : Unmarshal request body failed cause : %s",
    "Get object parameters from request failed");
   (getObjectListHandler,
    "getObjectListHandler : Unmarshal request body failed cause : %s",
    "Get bucket name from request failed")].

(** The ACL and folder handlers that go through [prepareHandler], each with
    its name, the fields it requires and its failure message. *)
Definition preparedHandlers : list (Handler * string * list string * string) :=
  [(createFolderHandler, "createFolderHandler",
    ["bucketName"; "folderName"; "parentName"], "create folder failed!!!");
   (getBucketAclHandler, "getBucketAclHandler",
    ["bucketName"], "get bucket acl failed!!!");
   (setBucketAclHandler, "setBucketAclHandler",
    ["bucketName"], "set bucket acl failed!!!");
   (getObjectAclHandler, "getObjectAclHandler",
    ["bucketName"; "objectName"], "get object acl failed!!!");
   (setObjectAclHandler, "setObjectAclHandler",
    ["bucketName"; "objectName"], "set object acl failed!!!")].

(** A [PutBucketAclInput] that names a bucket and carries no ACL. *)
Definition bareBucketAcl (bucketName : string) : PutBucketAclInput := {|
  pbaACL := None;
  pbaAccessControlPolicy := None;
  pbaBucket := Some bucketName;
  pbaGrantFullControl := None;
  pbaGrantRead := None;
  pbaGrantReadACP := None;
  pbaGrantWrite := None;
  pbaGrantWriteACP := None |}.

(** A [PutObjectAclInput] that names an object and carries no ACL. *)
Definition bareObjectAcl (bucketName objectName : string) : PutObjectAclInput := {|
  poaACL := None;
  poaAccessControlPolicy := None;
  poaBucket := Some bucketName;
  poaGrantFullControl := None;
  poaGrantRead := None;
  poaGrantReadACP := None;
  poaGrantWrite := None;
  poaGrantWriteACP := None;
  poaKey := Some objectName |}.

(** The client [prepareHandler] builds, from its fixed credentials. *)
Definition preparedClient : S3 := {| s3Config := prepareConfig |}.

(** The store calls of the two set-ACL handlers, from the decoded
    bucketName and objectName fields and the outcome of building the
    session. *)
Definition bucketAclCalls (en : Env) (bucketName : option JValue)
  : list (S3 * S3Call) :=
  match bucketName, session_NewSession en prepareConfig with
  | Some (JString b), None => [(preparedClient, CallPutBucketAcl (bareBucketAcl b))]
  | _, _ => []
  end.

Definition objectAclCalls (en : Env) (bucketName objectName : option JValue)
  : list (S3 * S3Call) :=
  match bucketName, objectName, session_NewSession en prepareConfig with
  | Some (JString b), Some (JString o), None =>
      [(preparedClient, CallPutObjectAcl (bareObjectAcl b o))]
  | _, _, _ => []
  end.

(** ** A concrete deployment, for the examples

    The decoder is a finite table: a body is named by what it stands for,
    and any other body is not JSON.  The auth node knows the user alice.
    The store holds the object a.txt of five bytes and nothing else, and
    its wait for a deleted bucket to disappear times out. *)
Module Demo.

Definition bodies : gmap string (gmap string JValue) :=
  list_to_map
    [("bucket docs", {[ "bucketName" := JString "docs" ]});
     ("bucket docs, acl public-read",
      <[ "acl" := JString "public-read" ]> {[ "bucketName" := JString "docs" ]});
     ("object docs/a.txt",
      <[ "objectName" := JString "a.txt" ]> {[ "bucketName" := JString "docs" ]});
     ("object docs/a.txt, acl private",
      <[ "acl" := JString "private" ]>
        (<[ "objectName" := JString "a.txt" ]> {[ "bucketName" := JString "docs" ]}));
     ("object docs/b.txt",
      <[ "objectName" := JString "b.txt" ]> {[ "bucketName" := JString "docs" ]});
     ("list docs, maxKeys abc",
      <[ "maxKeys" := JString "abc" ]>
        (<[ "startAfter" := JString "" ]>
           (<[ "prefix" := JString "" ]> {[ "bucketName" := JString "docs" ]})));
     ("folder name only", {[ "folderName" := JString "f/" ]})].

Definition keysOfAlice : KeyInfo :=
  {| AccessKey := "AKalice"; SecretKey := "SKalice" |}.

Definition page : ListObjectsV2Output := {|
  looContents := [];
  looCommonPrefixes := [];
  looKeyCount := Some 0;
  looStartAfter := None;
  looIsTruncated := Some false |}.

Definition env : Env := {|
  S3ListObjectsMaxKeys := "1000";
  json_Unmarshal := fun body => bodies !! body;
  auth_AdminGetCaps := fun _ _ userId =>
    if String.eqb userId "alice" then inr keysOfAlice else inl "user not found";
  session_NewSession := fun _ => None;
  s3_ListBuckets := fun _ => inr [];
  s3_CreateBucket := fun _ _ => None;
  s3_DeleteBucket := fun _ _ => None;
  s3_WaitUntilBucketNotExists := fun _ _ => Some "ResourceNotReady: exceeded wait attempts";
  s3_PutObject := fun _ _ => inr {| ETag := Some "etag" |};
  s3_HeadObject := fun _ i =>
    if bool_decide (oKey i = Some "a.txt")
    then inr {| hoContentLength := Some 5 |} else inl "NotFound";
  s3_GetObject := fun _ _ => (Some {| goBody := Some "hello" |}, None);
  s3_DeleteObject := fun _ _ => None;
  s3_ListObjectsV2 := fun _ _ => inr page;
  s3_GetBucketAcl := fun _ _ => inr {| aclOwner := None; aclGrants := [] |};
  s3_PutBucketAcl := fun _ _ => None;
  s3_GetObjectAcl := fun _ _ => inr {| aclOwner := None; aclGrants := [] |};
  s3_PutObjectAcl := fun _ _ => None
|}.

Definition console : Console := {|
  consoleId := "console";
  consoleKey := "consoleKey";
  s3Region := "cfs_default";
  s3Endpoint := "http://127.0.0.1:32793"
|}.

(** A request with the given query parameters and body, read without
    error. *)
Definition request (query : Values) (body : string) : Request := {|
  URLQuery := query;
  Header := {[ "Content-Type" := ["application/json"] ]};
  Body := (body, None);
  MultipartForm := None
|}.

Definition asAlice : Values := {[ "userId" := ["alice"] ]}.
Definition asMallory : Values := {[ "userId" := ["mallory"] ]}.

(** The client [getS3Client] builds for alice. *)
Definition clientOfAlice : S3 := {| s3Config := {|
  Region := Some "cfs_default";
  Endpoint := Some "http://127.0.0.1:32793";
  Creds := {| credId := "AKalice"; credSecret := "SKalice"; credToken := "23" |};
  DisableSSL := None;
  S3ForcePathStyle := None |} |}.

End Demo.

(** ** Further readings of a run *)

(** Every handler of the file, the empty ones included. *)
Definition allHandlers : list Handler :=
  perUserHandlers ++
  [fun _ => createObjectUrlHandler; fun _ => getObjectUrlHandler;
   createFolderHandler; fun _ => listFolderHandler; fun _ => deleteFolderHandler;
   getBucketAclHandler; setBucketAclHandler; getObjectAclHandler;
   setObjectAclHandler].

(** The messages the file passes to [writeErrorResponse]. *)
Definition errorMessages : list string :=
  ["Get s3 client failed"; "List buckets failed"; "Create bucket failed";
   "Get bucket name failed"; "Delete bucket failed"; "Put object failed";
   "Get object parameters failed"; "Get object failed";
   "Get object parameters from request failed"; "Delete object failed";
   "Get bucket name from request failed"; "create folder failed!!!";
   "get bucket acl failed!!!"; "set bucket acl failed!!!";
   "get object acl failed!!!"; "set object acl failed!!!"].

(** An envelope that is not an error, or an error with one of those
    messages. *)
Definition staticError (e : Envelope) : bool :=
  match e with
  | ErrorEnvelope msg => existsb (String.eqb msg) errorMessages
  | _ => true
  end.

(** Whether every error envelope of the trace comes right after an error
    log line; [prev] is the event before the trace. *)
Fixpoint errorsLogged (prev : option Event) (t : list Event) : bool :=
  match t with
  | [] => true
  | e :: t' =>
      match e, prev with
      | EvRespond (ErrorEnvelope _), Some (EvLog LogError _ _) => errorsLogged (Some e) t'
      | EvRespond (ErrorEnvelope _), _ => false
      | _, _ => errorsLogged (Some e) t'
      end
  end.

(** The lookups made at the auth node: the identity presented and the user
    id asked for. *)
Definition authCalls (t : list Event) : list (string * string * string) :=
  omap (fun e => match e with
                 | EvAdminGetCaps id key uid => Some (id, key, uid)
                 | _ => None
                 end) t.

(** The first value of the query parameter userId, empty when there is
    none. *)
Definition firstUserId (r : Request) : string :=
  match default [] (URLQuery r !! "userId") with
  | uid :: _ => uid
  | [] => ""
  end.

(** The client [getS3Client] builds from the keys of a user. *)
Definition userClient (c : Console) (k : KeyInfo) : S3 := {| s3Config := {|
  Region := Some (s3Region c);
  Endpoint := Some (s3Endpoint c);
  Creds := {| credId := AccessKey k; credSecret := SecretKey k; credToken := "23" |};
  DisableSSL := None;
  S3ForcePathStyle := None |} |}.

(** Whether a fallible answer is an error. *)
Definition isErr {A} (x : error + A) : bool :=
  match x with inl _ => true | inr _ => false end.
Definition isSomeErr (x : option error) : bool :=
  match x with Some _ => true | None => false end.

(** Whether the environment answers the call with an error. *)
Definition answerFailed (en : Env) (cl : S3) (call : S3Call) : bool :=
  match call with
  | CallListBuckets => isErr (s3_ListBuckets en cl)
  | CallCreateBucket i => isSomeErr (s3_CreateBucket en cl i)
  | CallDeleteBucket i => isSomeErr (s3_DeleteBucket en cl i)
  | CallWaitUntilBucketNotExists i => isSomeErr (s3_WaitUntilBucketNotExists en cl i)
  | CallPutObject i => isErr (s3_PutObject en cl i)
  | CallHeadObject i => isErr (s3_HeadObject en cl i)
  | CallGetObject i => isSomeErr (snd (s3_GetObject en cl i))
  | CallDeleteObject i => isSomeErr (s3_DeleteObject en cl i)
  | CallListObjectsV2 i => isErr (s3_ListObjectsV2 en cl i)
  | CallGetBucketAcl i => isErr (s3_GetBucketAcl en cl i)
  | CallPutBucketAcl i => isSomeErr (s3_PutBucketAcl en cl i)
  | CallGetObjectAcl i => isErr (s3_GetObjectAcl en cl i)
  | CallPutObjectAcl i => isSomeErr (s3_PutObjectAcl en cl i)
  end.

Definition isWait (call : S3Call) : bool :=
  match call with CallWaitUntilBucketNotExists _ => true | _ => false end.

Definition isErrorEnvelope (e : Envelope) : bool :=
  match e with ErrorEnvelope _ => true | _ => false end.

(** The console's view of a store bucket that has a name and a date, and
    of a store object that has an owner. *)
Definition named (b : S3Bucket) : bool :=
  match sbName b, sbCreationDate b with
  | Some _, Some _ => true
  | _, _ => false
  end.

Definition toBucket (b : S3Bucket) : Bucket :=
  {| Name := default "" (sbName b); CreateTime := default 0 (sbCreationDate b) |}.

Definition owned (o : S3Object) : bool :=
  match soOwner o with Some _ => true | None => false end.

Definition toObject (o : S3Object) : Object := {|
  Size := Int64Value (soSize o);
  OwnerId := StringValue (soOwner o ≫= ID);
  OwnerName := StringValue (soOwner o ≫= DisplayName);
  ObjectName := StringValue (soKey o);
  StorageClass := StringValue (soStorageClass o);
  LastModified := soLastModified o |}.


(** The input of the list call for the four decoded strings. *)
Definition listInput (en : Env) (bucketName prefix startAfter maxKeys : string)
  : ListObjectsV2Input := {|
  loBucket := Some bucketName;
  loPrefix := if decide (prefix = "") then None else Some prefix;
  loStartAfter := if decide (startAfter = "") then None else Some startAfter;
  loMaxKeys :=
    Some (fst (ParseInt (if decide (maxKeys = "")
                         then S3ListObjectsMaxKeys en else maxKeys))) |}.

(** Whether the string holds no dot. *)
Fixpoint noDot (s : string) : bool :=
  match s with
  | EmptyString => true
  | String c s' => negb (Ascii.eqb c ".") && noDot s'
  end.

(** ** Further deployments, for the examples *)

(** An upload of five bytes as docs/a.txt. *)
Module Upload.

Definition form : Form := {|
  Value := <[ "objectName" := ["a.txt"] ]> {[ "bucketName" := ["docs"] ]};
  File := {[ "file" := [ {| Filename := "a.txt"; Open := inr "hello" |} ] ]}
|}.

Definition request (query : Values) : Request := {|
  URLQuery := query;
  Header := ∅;
  Body := ("", None);
  MultipartForm := Some form
|}.

End Upload.

(** A store that is down: every call fails, except the probe of an object;
    a failed fetch comes back without a body.  One bucket of its listing
    has no name. *)
Module Outage.

Definition env : Env := {|
  S3ListObjectsMaxKeys := "1000";
  json_Unmarshal := json_Unmarshal Demo.env;
  auth_AdminGetCaps := auth_AdminGetCaps Demo.env;
  session_NewSession := fun _ => None;
  s3_ListBuckets := fun _ => inl "RequestError";
  s3_CreateBucket := fun _ _ => Some "RequestError";
  s3_DeleteBucket := fun _ _ => Some "RequestError";
  s3_WaitUntilBucketNotExists := fun _ _ => Some "RequestError";
  s3_PutObject := fun _ _ => inl "RequestError";
  s3_HeadObject := fun _ _ => inr {| hoContentLength := Some 5 |};
  s3_GetObject := fun _ _ => (Some {| goBody := None |}, Some "RequestError");
  s3_DeleteObject := fun _ _ => Some "RequestError";
  s3_ListObjectsV2 := fun _ _ => inl "RequestError";
  s3_GetBucketAcl := fun _ _ => inl "RequestError";
  s3_PutBucketAcl := fun _ _ => Some "RequestError";
  s3_GetObjectAcl := fun _ _ => inl "RequestError";
  s3_PutObjectAcl := fun _ _ => Some "RequestError"
|}.

End Outage.

(** A deployment whose decoder knows one more body: the folder b/ under
    a/ in the bucket docs. *)
Module Folder.

Definition body : gmap string JValue :=
  <[ "parentName" := JString "a/" ]>
    (<[ "folderName" := JString "b/" ]> {[ "bucketName" := JString "docs" ]}).

Definition env : Env := {|
  S3ListObjectsMaxKeys := "1000";
  json_Unmarshal := fun b =>
    if String.eqb b "folder docs/a/b/" then Some body else json_Unmarshal Demo.env b;
  auth_AdminGetCaps := auth_AdminGetCaps Demo.env;
  session_NewSession := session_NewSession Demo.env;
  s3_ListBuckets := s3_ListBuckets Demo.env;
  s3_CreateBucket := s3_CreateBucket Demo.env;
  s3_DeleteBucket := s3_DeleteBucket Demo.env;
  s3_WaitUntilBucketNotExists := s3_WaitUntilBucketNotExists Demo.env;
  s3_PutObject := s3_PutObject Demo.env;
  s3_HeadObject := s3_HeadObject Demo.env;
  s3_GetObject := s3_GetObject Demo.env;
  s3_DeleteObject := s3_DeleteObject Demo.env;
  s3_ListObjectsV2 := s3_ListObjectsV2 Demo.env;
  s3_GetBucketAcl := s3_GetBucketAcl Demo.env;
  s3_PutBucketAcl := s3_PutBucketAcl Demo.env;
  s3_GetObjectAcl := s3_GetObjectAcl Demo.env;
  s3_PutObjectAcl := s3_PutObjectAcl Demo.env
|}.

End Folder.

(** ** Proof automation *)

Ltac run_unfold :=
  unfold mbind, mret, Run_bind, Run_ret, s3call, LogErrorf, LogInfof,
    writeErrorResponse, writeSuccessResponse, writeDataResponse,
    emit, panic, defer, deref, index0, assertString, trace, outcome in *.

(** Case analysis on a scrutinee that holds no further case analysis. *)
Ltac break_inner :=
  match goal with
  | |- context [match ?x with _ => _ end] =>
      lazymatch x with
      | context [match _ with _ => _ end] => fail
      | _ => destruct x eqn:?
      end
  end.

Ltac run_cases := repeat (simpl in *; break_inner); simpl in *.

(** ** strconv and getCaller on examples *)

Example ParseInt_1000 : ParseInt "1000" = (1000, None).
Proof. reflexivity. Qed.
Example ParseInt_neg : ParseInt "-42" = (-42, None).
Proof. reflexivity. Qed.
Example ParseInt_abc : ParseInt "abc" = (0, Some ErrSyntax).
Proof. reflexivity. Qed.
Example ParseInt_big :
  ParseInt "99999999999999999999" = (2 ^ 63 - 1, Some ErrRange).
Proof. reflexivity. Qed.
Example ParseInt_min : ParseInt "-9223372036854775808" = (- 2 ^ 63, None).
Proof. reflexivity. Qed.
Example FormatInt_12 : FormatInt 12 = "12".
Proof. reflexivity. Qed.
Example FormatInt_neg : FormatInt (-7) = "-7".
Proof. reflexivity. Qed.

Example getCaller_method :
  getCaller (methodName "createFolderHandler") = "createFolderHandler".
Proof. reflexivity. Qed.

(** ** The credential resolver and the client factory *)

Lemma storeCalls_app t1 t2 : storeCalls (t1 ++ t2) = storeCalls t1 ++ storeCalls t2.
Proof. apply omap_app. Qed.

Lemma sessions_app t1 t2 : sessions (t1 ++ t2) = sessions t1 ++ sessions t2.
Proof. apply omap_app. Qed.

Lemma envelopes_app t1 t2 : envelopes (t1 ++ t2) = envelopes t1 ++ envelopes t2.
Proof. apply omap_app. Qed.

Lemma responseWrites_app t1 t2 :
  responseWrites (t1 ++ t2) = responseWrites t1 ++ responseWrites t2.
Proof. apply List.filter_app. Qed.

Lemma response_app t1 t2 :
  response (t1 ++ t2) = fold_left stepResponse t2 (response t1).
Proof. apply fold_left_app. Qed.

Lemma quiet_internal t : forallb quiet t = true -> forallb internal t = true.
Proof.
  induction t as [|e t IH]; simpl; [done|].
  intros [He Ht]%andb_prop. rewrite IH by done. by destruct e.
Qed.

Lemma quiet_sessions t : forallb quiet t = true -> sessions t = [].
Proof.
  induction t as [|e t IH]; simpl; [done|].
  intros [He Ht]%andb_prop. destruct e; try discriminate; simpl; auto.
Qed.

Lemma internal_storeCalls t : forallb internal t = true -> storeCalls t = [].
Proof.
  induction t as [|e t IH]; simpl; [done|].
  intros [He Ht]%andb_prop. destruct e; try discriminate; simpl; auto.
Qed.

Lemma internal_envelopes t : forallb internal t = true -> envelopes t = [].
Proof.
  induction t as [|e t IH]; simpl; [done|].
  intros [He Ht]%andb_prop. destruct e; try discriminate; simpl; auto.
Qed.

Lemma internal_responseWrites t : forallb internal t = true -> responseWrites t = [].
Proof.
  induction t as [|e t IH]; simpl; [done|].
  intros [He Ht]%andb_prop. destruct e; try discriminate; simpl; auto.
Qed.

Lemma internal_response t : forallb internal t = true -> response t = newResponse.
Proof.
  unfold response. generalize newResponse.
  induction t as [|e t IH]; simpl; [done|].
  intros w [He Ht]%andb_prop. destruct e; try discriminate; simpl; auto.
Qed.

(** The resolver ends in one of three ways: a panic before any effect, an
    error, or the key pair the auth node gave for a non-empty user id. *)
Lemma getS3Keys_cases en c r :
  (exists p, getS3Keys en c r = ([], Panicked p)) \/
  (exists t e, getS3Keys en c r = (t, Returned (inl e)) /\ forallb quiet t = true) \/
  (exists uid rest k,
     URLQuery r !! "userId" = Some (uid :: rest) /\ uid <> "" /\
     auth_AdminGetCaps en (consoleId c) (consoleKey c) uid = inr k /\
     getS3Keys en c r =
       ([EvAdminGetCaps (consoleId c) (consoleKey c) uid],
        Returned (inr (AccessKey k, SecretKey k)))).
Proof.
  unfold getS3Keys, AdminGetCaps. run_unfold.
  destruct (URLQuery r !! "userId") as [[|uid rest]|] eqn:Hq; simpl; eauto.
  destruct uid as [|a uid]; simpl.
  - right; left. eauto.
  - destruct (auth_AdminGetCaps en _ _ _) eqn:Ha; simpl.
    + right; left. eauto.
    + right; right. exists (String a uid), rest, k. repeat split; eauto.
Qed.

(** An empty user id is refused without asking the auth node. *)
Lemma getS3Keys_empty_userId en c r rest :
  URLQuery r !! "userId" = Some ("" :: rest) ->
  getS3Keys en c r =
    ([EvLog LogError "getS3Keys : user id is empty" []],
     Returned (inl "can not get user id from request")).
Proof. intros H. unfold getS3Keys. rewrite H. reflexivity. Qed.

(** Keys come back only for a non-empty user id the auth node accepts. *)
Lemma getS3Keys_keys_only_if en c r accessKey secretKey :
  outcome (getS3Keys en c r) = Returned (inr (accessKey, secretKey)) ->
  exists uid rest,
    URLQuery r !! "userId" = Some (uid :: rest) /\ uid <> "" /\
    auth_AdminGetCaps en (consoleId c) (consoleKey c) uid =
      inr {| AccessKey := accessKey; SecretKey := secretKey |}.
Proof.
  destruct (getS3Keys_cases en c r) as [(p & ->)|[(t & e & -> & _)|(uid & rest & k & Hq & Hne & Ha & ->)]];
    simpl; try discriminate.
  intros [= <- <-]. exists uid, rest. by destruct k.
Qed.

(** The client factory only logs, asks the auth node and builds a session. *)
Lemma getS3Client_internal en c r :
  forallb internal (trace (getS3Client en c r)) = true.
Proof.
  unfold getS3Client, NewSession.
  destruct (getS3Keys_cases en c r) as [(p & ->)|[(t & e & -> & Hq)|(uid & rest & k & _ & _ & _ & ->)]].
  - reflexivity.
  - run_unfold. simpl. rewrite forallb_app, (quiet_internal _ Hq). reflexivity.
  - run_unfold. simpl. by destruct (session_NewSession en _).
Qed.

(** Without a key pair there is no client, and nothing but log lines and
    the auth call happened. *)
Lemma getS3Client_no_keys en c r :
  (forall k, outcome (getS3Keys en c r) <> Returned (inr k)) ->
  exists t o, getS3Client en c r = (t, o) /\ forallb quiet t = true /\
              forall cl, o <> Returned (inr cl).
Proof.
  intros H. unfold getS3Client.
  destruct (getS3Keys_cases en c r) as [(p & Hk)|[(t & e & Hk & Hq)|(uid & rest & k & _ & _ & _ & Hk)]];
    rewrite Hk in *.
  - eexists _, _. split; [reflexivity|]. done.
  - run_unfold. simpl. eexists _, _. split; [reflexivity|].
    rewrite forallb_app, Hq. done.
  - exfalso. eapply H. reflexivity.
Qed.

Lemma no_keys_no_store en c r h :
  In h perUserHandlers ->
  (forall k, outcome (getS3Keys en c r) <> Returned (inr k)) ->
  storeCalls (trace (h en c r)) = [] /\ sessions (trace (h en c r)) = [].
Proof.
  intros Hh Hk.
  destruct (getS3Client_no_keys _ _ _ Hk) as (t & o & Hc & Hq & Hn).
  pose proof (internal_storeCalls _ (quiet_internal _ Hq)) as Hs1.
  pose proof (quiet_sessions _ Hq) as Hs2.
  simpl in Hh.
  repeat (destruct Hh as [<-|Hh]); [..|done].
  all: unfold getBucketListHandler, createBucketHandler, deleteBucketHandler,
    putObjectHandler, getObjectHandler, deleteObjectHandler, getObjectListHandler.
  all: run_unfold; rewrite ?Hc.
  all: run_cases.
  all: rewrite ?storeCalls_app, ?sessions_app, ?Hs1, ?Hs2; try (split; reflexivity).
  all: exfalso; eapply Hn; reflexivity.
Qed.

(** C7: in each of the seven handlers that build their client from the
    requesting user's keys, when the auth node answers the lookup of the
    request's user id with an error, the handler issues no call to the
    object store and builds no client session at all, so no other
    credentials take the place of the missing ones. *)
Theorem auth_failure_no_store_call en c r h uid rest err :
  In h perUserHandlers ->
  URLQuery r !! "userId" = Some (uid :: rest) ->
  auth_AdminGetCaps en (consoleId c) (consoleKey c) uid = inl err ->
  storeCalls (trace (h en c r)) = [] /\ sessions (trace (h en c r)) = [].
Proof.
  intros Hh Hq Ha. apply no_keys_no_store; [done|].
  intros k. unfold getS3Keys, AdminGetCaps. rewrite Hq. run_unfold. simpl.
  destruct uid; simpl; [discriminate|]. rewrite Ha. discriminate.
Qed.

Lemma auth_failure_no_store_call_witness :
  storeCalls (trace (deleteBucketHandler Demo.env Demo.console
                       (Demo.request Demo.asMallory "bucket docs"))) = [] /\
  sessions (trace (deleteBucketHandler Demo.env Demo.console
                     (Demo.request Demo.asMallory "bucket docs"))) = [].
Proof.
  apply (auth_failure_no_store_call Demo.env Demo.console
           (Demo.request Demo.asMallory "bucket docs") deleteBucketHandler
           "mallory" [] "user not found").
  - simpl. tauto.
  - reflexivity.
  - reflexivity.
Defined.

Lemma getS3Client_run_internal en c r t o :
  getS3Client en c r = (t, o) -> forallb internal t = true.
Proof. intros H. pose proof (getS3Client_internal en c r) as Hi. by rewrite H in Hi. Qed.

(** The two conversion loops have no effect of their own. *)
Lemma bucketsOf_silent l : trace (bucketsOf l) = [].
Proof.
  induction l as [|b l IH]; [done|]. simpl. run_unfold.
  destruct (sbName b); [|done]. destruct (sbCreationDate b); [|done]. simpl.
  destruct (bucketsOf l) as [t [bs|p]]; simpl in *; by subst t.
Qed.

Lemma objectsOf_silent l : trace (objectsOf l) = [].
Proof.
  induction l as [|o l IH]; [done|]. simpl. run_unfold.
  destruct (soOwner o); [|done]. simpl.
  destruct (objectsOf l) as [t [os|p]]; simpl in *; by subst t.
Qed.

(** C4 fails on the code: on a request without the userId parameter the
    resolver does not return an error; indexing the absent parameter's
    empty value list panics before the emptiness check is reached.  The
    rest of C4 holds: an empty userId is refused with an error
    ([getS3Keys_empty_userId]) and a key pair comes back only for a
    non-empty userId the auth node accepts ([getS3Keys_keys_only_if]). *)
Theorem getS3Keys_absent_userId_panics en c r :
  URLQuery r !! "userId" = None ->
  getS3Keys en c r =
    ([], Panicked "runtime error: index out of range [0] with length 0").
Proof. intros H. unfold getS3Keys. rewrite H. reflexivity. Qed.

Lemma getS3Keys_absent_userId_panics_witness :
  getS3Keys Demo.env Demo.console (Demo.request ∅ "bucket docs") =
    ([], Panicked "runtime error: index out of range [0] with length 0").
Proof.
  apply (getS3Keys_absent_userId_panics Demo.env Demo.console
           (Demo.request ∅ "bucket docs")).
  reflexivity.
Defined.

(** ** Bucket creation *)

(** The scenario of the spec: a create-bucket request for docs reaches the
    store as one create call with that name and is answered with the
    success envelope. *)
Example createBucket_docs :
  createBucketHandler Demo.env Demo.console (Demo.request Demo.asAlice "bucket docs") =
    ([EvAdminGetCaps "console" "consoleKey" "alice";
      EvNewSession (s3Config Demo.clientOfAlice);
      EvS3 Demo.clientOfAlice (CallCreateBucket {| bBucket := Some "docs" |});
      EvLog LogInfo "Create bucket %s success" ["docs"];
      EvRespond SuccessEnvelope],
     Returned tt).
Proof. reflexivity. Qed.

(** ** Bucket deletion *)

(** A failed delete call is answered with an error envelope, and the wait
    is not started. *)
Lemma deleteBucket_delete_error en c r body bucketName t cl err :
  Body r = (body, None) ->
  Unmarshal en body !! "bucketName" = Some (JString bucketName) ->
  getS3Client en c r = (t, Returned (inr cl)) ->
  s3_DeleteBucket en cl {| bBucket := Some bucketName |} = Some err ->
  deleteBucketHandler en c r =
    (t ++ [EvS3 cl (CallDeleteBucket {| bBucket := Some bucketName |});
           EvLog LogError "deleteBucketHandler : delete bucket %s failed cause : %s"
             [bucketName; err];
           EvRespond (ErrorEnvelope "Delete bucket failed")],
     Returned tt).
Proof.
  intros Hb Hn Hc Hd. unfold deleteBucketHandler, DeleteBucket.
  rewrite Hb, Hn. run_unfold. simpl. rewrite Hc. simpl. rewrite Hd. reflexivity.
Qed.

(** C1 fails on the code: when the delete call succeeds and the wait for the
    bucket to disappear returns an error, the handler logs success and
    writes the success envelope; the error of the wait is stored and never
    read. *)
Theorem deleteBucket_wait_error_answers_success en c r body bucketName t cl err :
  Body r = (body, None) ->
  Unmarshal en body !! "bucketName" = Some (JString bucketName) ->
  getS3Client en c r = (t, Returned (inr cl)) ->
  s3_DeleteBucket en cl {| bBucket := Some bucketName |} = None ->
  s3_WaitUntilBucketNotExists en cl {| bBucket := Some bucketName |} = Some err ->
  deleteBucketHandler en c r =
    (t ++ [EvS3 cl (CallDeleteBucket {| bBucket := Some bucketName |});
           EvS3 cl (CallWaitUntilBucketNotExists {| bBucket := Some bucketName |});
           EvLog LogInfo "Delete bucket %s success" [bucketName];
           EvRespond SuccessEnvelope],
     Returned tt) /\
  envelopes (trace (deleteBucketHandler en c r)) = [SuccessEnvelope].
Proof.
  intros Hb Hn Hc Hd Hw.
  assert (deleteBucketHandler en c r =
    (t ++ [EvS3 cl (CallDeleteBucket {| bBucket := Some bucketName |});
           EvS3 cl (CallWaitUntilBucketNotExists {| bBucket := Some bucketName |});
           EvLog LogInfo "Delete bucket %s success" [bucketName];
           EvRespond SuccessEnvelope],
     Returned tt)) as Hrun.
  { unfold deleteBucketHandler, DeleteBucket, WaitUntilBucketNotExists.
    rewrite Hb, Hn. run_unfold. simpl. rewrite Hc. simpl. rewrite Hd. reflexivity. }
  split; [exact Hrun|].
  rewrite Hrun. unfold trace. simpl. rewrite envelopes_app.
  rewrite (internal_envelopes _ (getS3Client_run_internal _ _ _ _ _ Hc)). reflexivity.
Qed.

Lemma deleteBucket_wait_error_answers_success_witness :
  deleteBucketHandler Demo.env Demo.console (Demo.request Demo.asAlice "bucket docs") =
    ([EvAdminGetCaps "console" "consoleKey" "alice";
      EvNewSession (s3Config Demo.clientOfAlice)] ++
     [EvS3 Demo.clientOfAlice (CallDeleteBucket {| bBucket := Some "docs" |});
      EvS3 Demo.clientOfAlice (CallWaitUntilBucketNotExists {| bBucket := Some "docs" |});
      EvLog LogInfo "Delete bucket %s success" ["docs"];
      EvRespond SuccessEnvelope],
     Returned tt) /\
  envelopes (trace (deleteBucketHandler Demo.env Demo.console
                      (Demo.request Demo.asAlice "bucket docs"))) = [SuccessEnvelope].
Proof.
  apply (deleteBucket_wait_error_answers_success Demo.env Demo.console
           (Demo.request Demo.asAlice "bucket docs") "bucket docs" "docs"
           _ Demo.clientOfAlice "ResourceNotReady: exceeded wait attempts");
    reflexivity.
Defined.

(** ** Object listing *)

(** A failed [ParseInt] yields 0 for a syntax error and a bound of int64
    for a range error. *)
Lemma ParseInt_error_value s v e :
  ParseInt s = (v, Some e) ->
  (e = ErrSyntax /\ v = 0) \/
  (e = ErrRange /\ (v = 2 ^ 63 - 1 \/ v = - 2 ^ 63)).
Proof.
  unfold ParseInt. destruct s as [|a s]; [intros [= <- <-]; auto|].
  destruct (if Ascii.eqb a "+" then _ else _) as [neg digits].
  destruct (ParseUint digits) as [un [[]|]].
  - intros [= <- <-]; auto.
  - repeat case_match; intros [= <- <-]; auto.
  - repeat case_match; intros [= <- <-]; auto.
Qed.

(** C5 fails on the code: when the decoded body of a list-objects request
    lacks prefix, maxKeys or startAfter, the handler does not return a page:
    the type assertion on the absent field panics, before any effect. *)
Theorem listObjects_omitted_field_panics en c r body :
  Body r = (body, None) ->
  Unmarshal en body !! "prefix" = None \/
  Unmarshal en body !! "maxKeys" = None \/
  Unmarshal en body !! "startAfter" = None ->
  getObjectListHandler en c r =
    ([], Panicked "interface conversion: interface {} is not string").
Proof.
  intros Hb H. unfold getObjectListHandler. rewrite Hb. run_unfold.
  destruct (Unmarshal en body !! "prefix") as [[]|]; try reflexivity.
  destruct (Unmarshal en body !! "maxKeys") as [[]|]; try reflexivity.
  destruct (Unmarshal en body !! "startAfter") as [[]|]; try reflexivity.
  all: destruct H as [H|[H|H]]; discriminate.
Qed.

Lemma listObjects_omitted_field_panics_witness :
  getObjectListHandler Demo.env Demo.console (Demo.request Demo.asAlice "bucket docs") =
    ([], Panicked "interface conversion: interface {} is not string").
Proof.
  apply (listObjects_omitted_field_panics Demo.env Demo.console
           (Demo.request Demo.asAlice "bucket docs") "bucket docs").
  - reflexivity.
  - left. reflexivity.
Defined.

(** The value handed to [SetMaxKeys] when the request's maxKeys is not
    empty: whatever [ParseInt] returned for it, error or not. *)
Lemma maxKeysOf_nonempty en maxKeys :
  maxKeys <> "" ->
  outcome (maxKeysOf en maxKeys) = Returned (fst (ParseInt maxKeys)).
Proof.
  intros Hne. unfold maxKeysOf. destruct maxKeys as [|a s]; [done|]. simpl String.length.
  simpl Nat.ltb. destruct (ParseInt (String a s)) as [v [e|]]; reflexivity.
Qed.

(** C2 fails on the code: for a maxKeys string that is not empty and does
    not parse, the list call is issued with what the failed parse
    returned, 0 for a syntax error and a bound of int64 for a range error,
    not with the value of the default constant, which the failed parse has
    overwritten. *)
Theorem listObjects_unparsable_maxKeys en c r body prefix maxKeys startAfter
    bucketName t cl e :
  Body r = (body, None) ->
  Unmarshal en body !! "prefix" = Some (JString prefix) ->
  Unmarshal en body !! "maxKeys" = Some (JString maxKeys) ->
  Unmarshal en body !! "startAfter" = Some (JString startAfter) ->
  Unmarshal en body !! "bucketName" = Some (JString bucketName) ->
  getS3Client en c r = (t, Returned (inr cl)) ->
  maxKeys <> "" ->
  snd (ParseInt maxKeys) = Some e ->
  storeCalls (trace (getObjectListHandler en c r)) =
    [(cl, CallListObjectsV2 {|
            loBucket := Some bucketName;
            loPrefix := if (0 <? String.length prefix)%nat then Some prefix else None;
            loStartAfter :=
              if (0 <? String.length startAfter)%nat then Some startAfter else None;
            loMaxKeys := Some (fst (ParseInt maxKeys)) |})] /\
  match e with
  | ErrSyntax => fst (ParseInt maxKeys) = 0
  | ErrRange => fst (ParseInt maxKeys) = 2 ^ 63 - 1 \/ fst (ParseInt maxKeys) = - 2 ^ 63
  end.
Proof.
  intros Hb Hp Hm Hs Hn Hc Hne He.
  destruct (ParseInt maxKeys) as [v e'] eqn:HP. simpl in He. subst e'.
  pose proof (internal_storeCalls _ (getS3Client_run_internal _ _ _ _ _ Hc)) as Hst.
  split.
  - unfold getObjectListHandler, ListObjectsV2, maxKeysOf.
    rewrite Hb, Hp, Hm, Hs, Hn. run_unfold. simpl. rewrite Hc. simpl.
    destruct maxKeys as [|a s]; [done|]. simpl String.length. simpl Nat.ltb. cbv iota.
    rewrite HP. simpl.
    destruct (s3_ListObjectsV2 en cl _) as [err|out]; simpl.
    + rewrite storeCalls_app, Hst. reflexivity.
    + pose proof (objectsOf_silent (looContents out)) as Ho.
      destruct (objectsOf (looContents out)) as [to [objs|p]]; simpl in *; subst to.
      all: rewrite !storeCalls_app, Hst; reflexivity.
  - simpl. destruct (ParseInt_error_value _ _ _ HP) as [[-> ->]|[-> H]]; auto.
Qed.

Lemma listObjects_unparsable_maxKeys_witness :
  storeCalls (trace (getObjectListHandler Demo.env Demo.console
                       (Demo.request Demo.asAlice "list docs, maxKeys abc"))) =
    [(Demo.clientOfAlice,
      CallListObjectsV2 {|
        loBucket := Some "docs";
        loPrefix := if (0 <? String.length "")%nat then Some "" else None;
        loStartAfter := if (0 <? String.length "")%nat then Some "" else None;
        loMaxKeys := Some (fst (ParseInt "abc")) |})] /\
  fst (ParseInt "abc") = 0.
Proof.
  apply (listObjects_unparsable_maxKeys Demo.env Demo.console
           (Demo.request Demo.asAlice "list docs, maxKeys abc")
           "list docs, maxKeys abc" "" "abc" "" "docs"
           [EvAdminGetCaps "console" "consoleKey" "alice";
            EvNewSession (s3Config Demo.clientOfAlice)]
           Demo.clientOfAlice ErrSyntax);
    try reflexivity.
  discriminate.
Defined.

(** In the concrete deployment the default is 1000, and the list call for
    maxKeys abc asks for 0 keys. *)
Example listObjects_abc_asks_zero :
  fst (ParseInt (S3ListObjectsMaxKeys Demo.env)) = 1000 /\
  storeCalls (trace (getObjectListHandler Demo.env Demo.console
                       (Demo.request Demo.asAlice "list docs, maxKeys abc"))) =
    [(Demo.clientOfAlice,
      CallListObjectsV2 {| loBucket := Some "docs"; loPrefix := None;
                           loStartAfter := None; loMaxKeys := Some 0 |})].
Proof. split; reflexivity. Qed.

(** Whatever the default constant is, some non-empty maxKeys that does not
    parse makes the handler ask for another number of keys. *)
Lemma maxKeys_fallback_differs en :
  exists maxKeys,
    maxKeys <> "" /\ snd (ParseInt maxKeys) <> None /\
    outcome (maxKeysOf en maxKeys) <>
      Returned (fst (ParseInt (S3ListObjectsMaxKeys en))).
Proof.
  destruct (decide (fst (ParseInt (S3ListObjectsMaxKeys en)) = 0)) as [H0|H0].
  - exists "99999999999999999999".
    split; [discriminate|]. split; [vm_compute; discriminate|].
    rewrite maxKeysOf_nonempty by discriminate. rewrite H0.
    vm_compute. discriminate.
  - exists "abc".
    split; [discriminate|]. split; [vm_compute; discriminate|].
    rewrite maxKeysOf_nonempty by discriminate.
    change (fst (ParseInt "abc")) with 0. congruence.
Qed.

(** ** Object download *)

(** C3: whenever the get-object handler has issued the metadata probe and
    the store answers it with an error, the handler returns normally, has
    written nothing on the response writer (no envelope, no status, no
    header, no body byte) and has issued no GetObject call. *)
Theorem getObject_probe_error_silent en c r cl i err :
  (cl, CallHeadObject i) ∈ storeCalls (trace (getObjectHandler en c r)) ->
  s3_HeadObject en cl i = inl err ->
  outcome (getObjectHandler en c r) = Returned tt /\
  responseWrites (trace (getObjectHandler en c r)) = [] /\
  forall cl' i', (cl', CallGetObject i') ∉ storeCalls (trace (getObjectHandler en c r)).
Proof.
  unfold getObjectHandler, HeadObject, GetObject.
  destruct (Body r) as [body [e|]]; [simpl; intros H; by apply elem_of_nil in H|].
  run_unfold.
  destruct (Unmarshal en body !! "bucketName") as [[]|]; try (simpl; intros H; by apply elem_of_nil in H).
  destruct (Unmarshal en body !! "objectName") as [[]|]; try (simpl; intros H; by apply elem_of_nil in H).
  simpl.
  destruct (getS3Client en c r) as [t [[e|cl0]|p]] eqn:Hc.
  all: pose proof (getS3Client_run_internal _ _ _ _ _ Hc) as Hi.
  all: pose proof (internal_storeCalls _ Hi) as Hst.
  all: pose proof (internal_responseWrites _ Hi) as Hrw.
  all: simpl.
  1, 3: rewrite ?storeCalls_app, Hst; simpl; intros H; by apply elem_of_nil in H.
  destruct (s3_HeadObject en cl0 _) as [e|out] eqn:Hh; simpl.
  - intros _ _. rewrite responseWrites_app, storeCalls_app, Hst, Hrw. simpl.
    repeat split. intros cl' i' H. apply list_elem_of_singleton in H. discriminate.
  - intros Hin Herr. exfalso.
    assert ((cl, CallHeadObject i) =
            (cl0, CallHeadObject {| oBucket := Some s; oKey := Some s0 |})) as Heq.
    { revert Hin. run_cases; rewrite ?storeCalls_app, ?Hst; simpl; intros Hin.
      all: repeat (apply elem_of_cons in Hin as [Hin|Hin]; [try done; try discriminate|]).
      all: try (by apply elem_of_nil in Hin). }
    injection Heq as -> ->. congruence.
Qed.

Lemma getObject_probe_error_silent_witness :
  outcome (getObjectHandler Demo.env Demo.console
             (Demo.request Demo.asAlice "object docs/b.txt")) = Returned tt /\
  responseWrites (trace (getObjectHandler Demo.env Demo.console
                           (Demo.request Demo.asAlice "object docs/b.txt"))) = [] /\
  forall cl' i',
    (cl', CallGetObject i') ∉
      storeCalls (trace (getObjectHandler Demo.env Demo.console
                           (Demo.request Demo.asAlice "object docs/b.txt"))).
Proof.
  apply (getObject_probe_error_silent Demo.env Demo.console
           (Demo.request Demo.asAlice "object docs/b.txt") Demo.clientOfAlice
           {| oBucket := Some "docs"; oKey := Some "b.txt" |} "NotFound").
  - vm_compute. constructor.
  - reflexivity.
Defined.

(** The run of a download whose probe and fetch both succeed. *)
Lemma getObject_success_run en c r body bucketName objectName t cl size data :
  Body r = (body, None) ->
  Unmarshal en body !! "bucketName" = Some (JString bucketName) ->
  Unmarshal en body !! "objectName" = Some (JString objectName) ->
  getS3Client en c r = (t, Returned (inr cl)) ->
  s3_HeadObject en cl {| oBucket := Some bucketName; oKey := Some objectName |} =
    inr {| hoContentLength := Some size |} ->
  s3_GetObject en cl {| oBucket := Some bucketName; oKey := Some objectName |} =
    (Some {| goBody := Some data |}, None) ->
  getObjectHandler en c r =
    (t ++ [EvS3 cl (CallHeadObject {| oBucket := Some bucketName; oKey := Some objectName |});
           EvS3 cl (CallGetObject {| oBucket := Some bucketName; oKey := Some objectName |});
           EvWriteHeader 200;
           EvHeaderSet "Content-Type" (HeaderGet (Header r) "Content-Type");
           EvHeaderSet "Content-Disposition" ("attachment; filename=" +:+ objectName);
           EvHeaderSet "Content-Length" (FormatInt size);
           EvWrite data;
           EvClose "responseData"],
     Returned tt).
Proof.
  intros Hb Hn Ho Hc Hh Hg. unfold getObjectHandler, HeadObject, GetObject.
  rewrite Hb, Hn, Ho. run_unfold. simpl. rewrite Hc. simpl. rewrite Hh. simpl.
  rewrite Hg. reflexivity.
Qed.

(** C8 fails on the code: on a download whose probe and fetch succeed the
    handler calls [WriteHeader] before it sets its three headers, so the
    response goes out with status 200 and none of them; the values the
    claim names only reach the handler's header map, after the head of the
    response is sent.  The body bytes follow as claimed. *)
Theorem getObject_success_headers_not_sent en c r body bucketName objectName
    t cl size data :
  Body r = (body, None) ->
  Unmarshal en body !! "bucketName" = Some (JString bucketName) ->
  Unmarshal en body !! "objectName" = Some (JString objectName) ->
  getS3Client en c r = (t, Returned (inr cl)) ->
  s3_HeadObject en cl {| oBucket := Some bucketName; oKey := Some objectName |} =
    inr {| hoContentLength := Some size |} ->
  s3_GetObject en cl {| oBucket := Some bucketName; oKey := Some objectName |} =
    (Some {| goBody := Some data |}, None) ->
  sentHead (response (trace (getObjectHandler en c r))) = Some (200, ∅) /\
  sentHeaders (trace (getObjectHandler en c r)) !! "Content-Disposition" = None /\
  sentBody (response (trace (getObjectHandler en c r))) = [data] /\
  handlerHeader (response (trace (getObjectHandler en c r))) =
    <[ "Content-Length" := FormatInt size ]>
      (<[ "Content-Disposition" := "attachment; filename=" +:+ objectName ]>
         (<[ "Content-Type" := HeaderGet (Header r) "Content-Type" ]> ∅)).
Proof.
  intros Hb Hn Ho Hc Hh Hg.
  unfold sentHeaders.
  rewrite (getObject_success_run _ _ _ _ _ _ _ _ _ _ Hb Hn Ho Hc Hh Hg).
  unfold trace. simpl fst. rewrite response_app.
  rewrite (internal_response _ (getS3Client_run_internal _ _ _ _ _ Hc)).
  simpl. repeat split; reflexivity.
Qed.

Lemma getObject_success_headers_not_sent_witness :
  sentHead (response (trace (getObjectHandler Demo.env Demo.console
      (Demo.request Demo.asAlice "object docs/a.txt")))) = Some (200, ∅) /\
  sentHeaders (trace (getObjectHandler Demo.env Demo.console
      (Demo.request Demo.asAlice "object docs/a.txt"))) !! "Content-Disposition" = None /\
  sentBody (response (trace (getObjectHandler Demo.env Demo.console
      (Demo.request Demo.asAlice "object docs/a.txt")))) = ["hello"] /\
  handlerHeader (response (trace (getObjectHandler Demo.env Demo.console
      (Demo.request Demo.asAlice "object docs/a.txt")))) =
    <[ "Content-Length" := FormatInt 5 ]>
      (<[ "Content-Disposition" := "attachment; filename=" +:+ "a.txt" ]>
         (<[ "Content-Type" :=
               HeaderGet (Header (Demo.request Demo.asAlice "object docs/a.txt"))
                 "Content-Type" ]> ∅)).
Proof.
  apply (getObject_success_headers_not_sent Demo.env Demo.console
           (Demo.request Demo.asAlice "object docs/a.txt") "object docs/a.txt"
           "docs" "a.txt"
           [EvAdminGetCaps "console" "consoleKey" "alice";
            EvNewSession (s3Config Demo.clientOfAlice)]
           Demo.clientOfAlice 5 "hello");
    reflexivity.
Defined.

(** Had the three headers been set before [WriteHeader], they would have
    been sent: the response writer sends the header map as it stands when
    the status is written. *)
Example headers_set_first_are_sent :
  sentHeaders [EvHeaderSet "Content-Disposition" "attachment; filename=a.txt";
               EvWriteHeader 200; EvWrite "hello"] !! "Content-Disposition" =
    Some "attachment; filename=a.txt".
Proof. reflexivity. Qed.

(** ** ACL and folder handlers *)

Lemma missingParam_finds (req : gmap string JValue) (args : list string) a :
  a ∈ args -> req !! a = None ->
  exists arg, missingParam req args = Some arg /\ arg ∈ args /\ req !! arg = None.
Proof.
  induction args as [|x args IH]; intros Hin Hn.
  - by apply elem_of_nil in Hin.
  - simpl. destruct (req !! x) eqn:Hx.
    + apply elem_of_cons in Hin as [->|Hin]; [congruence|].
      destruct (IH Hin Hn) as (arg & Hm & Ha & Hr).
      exists arg. split; [done|]. split; [|done]. by apply elem_of_cons; right.
    + exists x. split; [done|]. split; [|done]. by apply elem_of_cons; left.
Qed.

Lemma missingParam_none (req : gmap string JValue) (args : list string) a :
  missingParam req args = None -> a ∈ args -> is_Some (req !! a).
Proof.
  induction args as [|x args IH]; intros Hm Hin.
  - by apply elem_of_nil in Hin.
  - simpl in Hm. destruct (req !! x) eqn:Hx; [|discriminate].
    apply elem_of_cons in Hin as [->|Hin]; eauto.
Qed.

(** A missing field stops [prepareHandler] before it builds a session. *)
Lemma prepareHandler_missing en r body args arg :
  Body r = (body, None) ->
  missingParam (Unmarshal en body) args = Some arg ->
  prepareHandler en r args = ([], Returned (inl ("can't find param [" +:+ arg +:+ "]"))).
Proof. intros Hb Hm. unfold prepareHandler. rewrite Hb, Hm. reflexivity. Qed.

(** C6: in each ACL or folder handler that goes through [prepareHandler],
    when the body is read and its decoded form lacks one of the handler's
    required fields, the handler logs that a parameter cannot be found,
    naming a required field that is absent, writes one error envelope with
    its failure message and returns; it builds no session and issues no
    call to the object store. *)
Theorem prepared_handler_missing_field en c r body h name args msg a :
  In (h, name, args, msg) preparedHandlers ->
  Body r = (body, None) ->
  a ∈ args ->
  Unmarshal en body !! a = None ->
  (exists arg,
     arg ∈ args /\ Unmarshal en body !! arg = None /\
     h en c r =
       ([EvLog LogError "%s(): %s" [name; "can't find param [" +:+ arg +:+ "]"];
         EvRespond (ErrorEnvelope msg)],
        Returned tt)) /\
  envelopes (trace (h en c r)) = [ErrorEnvelope msg] /\
  storeCalls (trace (h en c r)) = [] /\
  sessions (trace (h en c r)) = [].
Proof.
  intros Hh Hb Ha Hn.
  destruct (missingParam_finds _ _ _ Ha Hn) as (arg & Hm & Harg & Hr).
  assert (h en c r =
    ([EvLog LogError "%s(): %s" [name; "can't find param [" +:+ arg +:+ "]"];
      EvRespond (ErrorEnvelope msg)], Returned tt)) as Hrun.
  { simpl in Hh.
    repeat (destruct Hh as [[= <- <- <- <-]|Hh]); [..|done].
    all: unfold createFolderHandler, getBucketAclHandler, setBucketAclHandler,
      getObjectAclHandler, setObjectAclHandler.
    all: rewrite (prepareHandler_missing _ _ _ _ _ Hb Hm); reflexivity. }
  split; [by exists arg|]. rewrite Hrun. done.
Qed.

Lemma prepared_handler_missing_field_witness :
  (exists arg,
     arg ∈ ["bucketName"; "folderName"; "parentName"] /\
     Unmarshal Demo.env "folder name only" !! arg = None /\
     createFolderHandler Demo.env Demo.console
       (Demo.request Demo.asAlice "folder name only") =
       ([EvLog LogError "%s(): %s"
           ["createFolderHandler"; "can't find param [" +:+ arg +:+ "]"];
         EvRespond (ErrorEnvelope "create folder failed!!!")],
        Returned tt)) /\
  envelopes (trace (createFolderHandler Demo.env Demo.console
               (Demo.request Demo.asAlice "folder name only"))) =
    [ErrorEnvelope "create folder failed!!!"] /\
  storeCalls (trace (createFolderHandler Demo.env Demo.console
                (Demo.request Demo.asAlice "folder name only"))) = [] /\
  sessions (trace (createFolderHandler Demo.env Demo.console
              (Demo.request Demo.asAlice "folder name only"))) = [].
Proof.
  apply (prepared_handler_missing_field Demo.env Demo.console
           (Demo.request Demo.asAlice "folder name only") "folder name only"
           createFolderHandler "createFolderHandler"
           ["bucketName"; "folderName"; "parentName"] "create folder failed!!!"
           "parentName").
  - simpl. tauto.
  - reflexivity.
  - apply elem_of_cons; right. apply elem_of_cons; right. apply elem_of_cons; left.
    reflexivity.
  - reflexivity.
Defined.

(** The store calls of the set-ACL handlers are a function of the decoded
    names alone. *)
Lemma setBucketAcl_storeCalls en c r body :
  Body r = (body, None) ->
  storeCalls (trace (setBucketAclHandler en c r)) =
    bucketAclCalls en (Unmarshal en body !! "bucketName").
Proof.
  intros Hb. unfold setBucketAclHandler, prepareHandler, PutBucketAcl, NewSession,
    bucketAclCalls, missingParam.
  rewrite Hb. run_unfold. run_cases; simplify_eq; reflexivity.
Qed.

Lemma setObjectAcl_storeCalls en c r body :
  Body r = (body, None) ->
  storeCalls (trace (setObjectAclHandler en c r)) =
    objectAclCalls en (Unmarshal en body !! "bucketName")
      (Unmarshal en body !! "objectName").
Proof.
  intros Hb. unfold setObjectAclHandler, prepareHandler, PutObjectAcl, NewSession,
    objectAclCalls, missingParam.
  rewrite Hb. run_unfold. run_cases; simplify_eq; reflexivity.
Qed.

(** Two set-ACL requests whose decoded bodies agree on bucketName (and
    objectName) issue the same store calls, also when the fields are
    absent or are not strings or the session cannot be built, and every
    call issued is the bare one. *)
Lemma set_acl_calls_agree en c c' r r' body body' :
  Body r = (body, None) ->
  Body r' = (body', None) ->
  Unmarshal en body !! "bucketName" = Unmarshal en body' !! "bucketName" ->
  (storeCalls (trace (setBucketAclHandler en c r)) =
     storeCalls (trace (setBucketAclHandler en c' r')) /\
   forall call, call ∈ storeCalls (trace (setBucketAclHandler en c r)) ->
     exists b, Unmarshal en body !! "bucketName" = Some (JString b) /\
               call = (preparedClient, CallPutBucketAcl (bareBucketAcl b))) /\
  (Unmarshal en body !! "objectName" = Unmarshal en body' !! "objectName" ->
   storeCalls (trace (setObjectAclHandler en c r)) =
     storeCalls (trace (setObjectAclHandler en c' r')) /\
   forall call, call ∈ storeCalls (trace (setObjectAclHandler en c r)) ->
     exists b o, Unmarshal en body !! "bucketName" = Some (JString b) /\
                 Unmarshal en body !! "objectName" = Some (JString o) /\
                 call = (preparedClient, CallPutObjectAcl (bareObjectAcl b o))).
Proof.
  intros Hb Hb' Hn.
  rewrite (setBucketAcl_storeCalls _ c _ _ Hb), (setBucketAcl_storeCalls _ c' _ _ Hb').
  rewrite (setObjectAcl_storeCalls _ c _ _ Hb), (setObjectAcl_storeCalls _ c' _ _ Hb').
  rewrite <- Hn. split; [split; [done|]|].
  - unfold bucketAclCalls. intros call Hin.
    destruct (Unmarshal en body !! "bucketName") as [[]|];
      try (by apply elem_of_nil in Hin).
    destruct (session_NewSession en prepareConfig); [by apply elem_of_nil in Hin|].
    apply list_elem_of_singleton in Hin. eauto.
  - intros Ho. rewrite <- Ho. split; [done|].
    unfold objectAclCalls. intros call Hin.
    destruct (Unmarshal en body !! "bucketName") as [[]|];
      try (by apply elem_of_nil in Hin).
    destruct (Unmarshal en body !! "objectName") as [[]|];
      try (by apply elem_of_nil in Hin).
    destruct (session_NewSession en prepareConfig); [by apply elem_of_nil in Hin|].
    apply list_elem_of_singleton in Hin. eauto.
Qed.

(** C9: a set-bucket-ACL request whose body is read and holds bucketName as
    a string issues, once the session is built, exactly one store call:
    PutBucketAcl on the fixed client with the bucket named and every ACL
    field unset; a set-object-ACL request that also holds objectName as a
    string issues exactly one PutObjectAcl with the bucket and the key
    named and every ACL field unset.  A second request with the same
    names issues the same call, whatever else its body, its query and its
    headers hold: nothing of the body but the names reaches the store. *)
Theorem set_acl_calls_from_names_only en c c' r r' body body' bucketName objectName :
  Body r = (body, None) ->
  Body r' = (body', None) ->
  session_NewSession en prepareConfig = None ->
  Unmarshal en body !! "bucketName" = Some (JString bucketName) ->
  Unmarshal en body' !! "bucketName" = Some (JString bucketName) ->
  (storeCalls (trace (setBucketAclHandler en c r)) =
     [(preparedClient, CallPutBucketAcl (bareBucketAcl bucketName))] /\
   storeCalls (trace (setBucketAclHandler en c' r')) =
     [(preparedClient, CallPutBucketAcl (bareBucketAcl bucketName))]) /\
  (Unmarshal en body !! "objectName" = Some (JString objectName) ->
   Unmarshal en body' !! "objectName" = Some (JString objectName) ->
   storeCalls (trace (setObjectAclHandler en c r)) =
     [(preparedClient, CallPutObjectAcl (bareObjectAcl bucketName objectName))] /\
   storeCalls (trace (setObjectAclHandler en c' r')) =
     [(preparedClient, CallPutObjectAcl (bareObjectAcl bucketName objectName))]).
Proof.
  intros Hb Hb' Hs Hn Hn'.
  rewrite (setBucketAcl_storeCalls _ c _ _ Hb), (setBucketAcl_storeCalls _ c' _ _ Hb').
  rewrite (setObjectAcl_storeCalls _ c _ _ Hb), (setObjectAcl_storeCalls _ c' _ _ Hb').
  unfold bucketAclCalls, objectAclCalls. rewrite Hn, Hn', Hs.
  split; [done|]. intros Ho Ho'. by rewrite Ho, Ho'.
Qed.

Lemma set_acl_calls_from_names_only_witness :
  (storeCalls (trace (setBucketAclHandler Demo.env Demo.console
                 (Demo.request Demo.asAlice "object docs/a.txt"))) =
     [(preparedClient, CallPutBucketAcl (bareBucketAcl "docs"))] /\
   storeCalls (trace (setBucketAclHandler Demo.env Demo.console
                 (Demo.request Demo.asMallory "object docs/a.txt, acl private"))) =
     [(preparedClient, CallPutBucketAcl (bareBucketAcl "docs"))]) /\
  (storeCalls (trace (setObjectAclHandler Demo.env Demo.console
                 (Demo.request Demo.asAlice "object docs/a.txt"))) =
     [(preparedClient, CallPutObjectAcl (bareObjectAcl "docs" "a.txt"))] /\
   storeCalls (trace (setObjectAclHandler Demo.env Demo.console
                 (Demo.request Demo.asMallory "object docs/a.txt, acl private"))) =
     [(preparedClient, CallPutObjectAcl (bareObjectAcl "docs" "a.txt"))]).
Proof.
  split.
  - apply (set_acl_calls_from_names_only Demo.env Demo.console Demo.console
             (Demo.request Demo.asAlice "object docs/a.txt")
             (Demo.request Demo.asMallory "object docs/a.txt, acl private")
             "object docs/a.txt" "object docs/a.txt, acl private" "docs" "a.txt");
      reflexivity.
  - apply (set_acl_calls_from_names_only Demo.env Demo.console Demo.console
             (Demo.request Demo.asAlice "object docs/a.txt")
             (Demo.request Demo.asMallory "object docs/a.txt, acl private")
             "object docs/a.txt" "object docs/a.txt, acl private" "docs" "a.txt");
      reflexivity.
Defined.

(** In the concrete deployment the call is issued, and the ACL the second
    body asks for is nowhere in it. *)
Example setBucketAcl_public_read_dropped :
  storeCalls (trace (setBucketAclHandler Demo.env Demo.console
                (Demo.request Demo.asAlice "bucket docs, acl public-read"))) =
    [(preparedClient, CallPutBucketAcl (bareBucketAcl "docs"))].
Proof. reflexivity. Qed.

(** ** Handlers that decode a JSON body *)

Lemma loggedError_app format t1 t2 :
  loggedError format (t1 ++ t2) = loggedError format t1 || loggedError format t2.
Proof. apply existsb_app. Qed.

(** Case analysis on the conversion loops, whose trace is empty. *)
Ltac loops_silent :=
  repeat match goal with
    | |- context [objectsOf ?l] =>
        let H := fresh in
        pose proof (objectsOf_silent l) as H;
        destruct (objectsOf l) as [? [?|?]]; unfold trace in H; simpl in H; subst
    | |- context [bucketsOf ?l] =>
        let H := fresh in
        pose proof (bucketsOf_silent l) as H;
        destruct (bucketsOf l) as [? [?|?]]; unfold trace in H; simpl in H; subst
    end.

Ltac run_all := repeat (simpl in *; first [progress loops_silent | break_inner]); simpl in *.

(** C10: in each of the five handlers that decode a JSON body themselves,
    the branch that logs the parameter error and writes its envelope is
    the whole run when reading the body fails; it is not taken when the
    body is read, whatever the body holds; and a body that is read but is
    not JSON makes the handler panic on its first type assertion, before
    any effect, so that no envelope of any kind is written. *)
Theorem param_error_branch_only_on_read_error en c r h format msg :
  In (h, format, msg) jsonBodyHandlers ->
  (forall e, snd (Body r) = Some e ->
     h en c r = ([EvLog LogError format [e]; EvRespond (ErrorEnvelope msg)], Returned tt)) /\
  (snd (Body r) = None -> loggedError format (trace (h en c r)) = false) /\
  (snd (Body r) = None -> json_Unmarshal en (fst (Body r)) = None ->
     h en c r = ([], Panicked "interface conversion: interface {} is not string")).
Proof.
  intros Hh. simpl in Hh.
  repeat (destruct Hh as [[= <- <- <-]|Hh]); [..|done].
  all: split; [|split].
  all: unfold createBucketHandler, deleteBucketHandler, getObjectHandler,
    deleteObjectHandler, getObjectListHandler.
  all: destruct (Body r) as [body [e|]]; simpl snd; simpl fst.
  all: try (intros e' [= <-]; reflexivity).
  all: try discriminate.
  (* the body is read: the branch is not taken *)
  1, 3, 5, 7, 9: intros _;
    unfold getS3Client, getS3Keys, AdminGetCaps, NewSession, CreateBucket, DeleteBucket,
      WaitUntilBucketNotExists, HeadObject, GetObject, DeleteObject, ListObjectsV2,
      maxKeysOf;
    run_unfold; run_all; reflexivity.
  (* the body is read and is not JSON *)
  all: intros _ Hj; unfold Unmarshal; rewrite Hj; reflexivity.
Qed.

Lemma param_error_branch_only_on_read_error_witness :
  (forall e, snd (Body (Demo.request Demo.asAlice "not json")) = Some e ->
     createBucketHandler Demo.env Demo.console (Demo.request Demo.asAlice "not json") =
       ([EvLog LogError "createBucketHandler : get bucket name failed cause : %s" [e];
         EvRespond (ErrorEnvelope "Create bucket failed")], Returned tt)) /\
  (snd (Body (Demo.request Demo.asAlice "not json")) = None ->
     loggedError "createBucketHandler : get bucket name failed cause : %s"
       (trace (createBucketHandler Demo.env Demo.console
                 (Demo.request Demo.asAlice "not json"))) = false) /\
  (snd (Body (Demo.request Demo.asAlice "not json")) = None ->
   json_Unmarshal Demo.env (fst (Body (Demo.request Demo.asAlice "not json"))) = None ->
     createBucketHandler Demo.env Demo.console (Demo.request Demo.asAlice "not json") =
       ([], Panicked "interface conversion: interface {} is not string")).
Proof.
  apply (param_error_branch_only_on_read_error Demo.env Demo.console
           (Demo.request Demo.asAlice "not json") createBucketHandler
           "createBucketHandler : get bucket name failed cause : %s"
           "Create bucket failed").
  simpl. tauto.
Defined.

(** In the concrete deployment: a body that is not JSON gets no answer, a
    body whose read fails gets the parameter-error envelope. *)
Example createBucket_not_json :
  createBucketHandler Demo.env Demo.console (Demo.request Demo.asAlice "not json") =
    ([], Panicked "interface conversion: interface {} is not string").
Proof. reflexivity. Qed.

Example createBucket_read_error :
  createBucketHandler Demo.env Demo.console
    {| URLQuery := Demo.asAlice; Header := ∅;
       Body := ("", Some "unexpected EOF"); MultipartForm := None |} =
    ([EvLog LogError "createBucketHandler : get bucket name failed cause : %s"
        ["unexpected EOF"];
      EvRespond (ErrorEnvelope "Create bucket failed")], Returned tt).
Proof. reflexivity. Qed.

(** * Further properties of the handlers *)

(** ** The conversion loops *)

(** The loop over the store's buckets yields the console's view of each
    bucket, in order, and panics when a bucket has no name or no date. *)
Lemma bucketsOf_run l :
  bucketsOf l =
    ([], if forallb named l then Returned (map toBucket l) else Panicked nilPanic).
Proof.
  induction l as [|b l IH]; [done|]. simpl. rewrite IH.
  destruct b as [[name|] [date|]]; run_unfold; run_unfold; simpl; try done.
  by destruct (forallb named l).
Qed.

(** The loop over the store's objects, likewise; it panics when an object
    has no owner. *)
Lemma objectsOf_run l :
  objectsOf l =
    ([], if forallb owned l then Returned (map toObject l) else Panicked nilPanic).
Proof.
  induction l as [|o l IH]; [done|]. simpl. rewrite IH.
  destruct o as [key size [owner|] class modified]; run_unfold; run_unfold; simpl;
    try done.
  by destruct (forallb owned l).
Qed.

Ltac unfold_handlers :=
  unfold getBucketListHandler, createBucketHandler, deleteBucketHandler,
    putObjectHandler, getObjectHandler, deleteObjectHandler, getObjectListHandler,
    createObjectUrlHandler, getObjectUrlHandler, listFolderHandler,
    deleteFolderHandler, createFolderHandler, getBucketAclHandler,
    setBucketAclHandler, getObjectAclHandler, setObjectAclHandler,
    prepareHandler, getS3Client, getS3Keys, AdminGetCaps, NewSession,
    ListBuckets, CreateBucket, DeleteBucket, WaitUntilBucketNotExists, PutObject,
    HeadObject, GetObject, DeleteObject, ListObjectsV2, GetBucketAcl, PutBucketAcl,
    GetObjectAcl, PutObjectAcl, maxKeysOf, FormFile in *.

(** Splits a run into its paths, the conversion loops by their outcome. *)
Ltac run_paths :=
  repeat (simpl;
          first [rewrite bucketsOf_run | rewrite objectsOf_run | break_inner]);
  simpl.

(** Splits the run a goal is about into its paths: the run is named, the
    handlers are unfolded in its equation alone, and each path ends with
    the run replaced by its events and outcome. *)
Ltac split_paths :=
  cbv beta;
  match goal with
  | |- context [trace ?run] =>
      let x := fresh "run" in
      let H := fresh "Hrun" in
      remember run as x eqn:H; revert H;
      unfold_handlers; run_unfold; run_paths; intros ->; simpl
  end.

(** Splits [In h allHandlers] into one goal per handler and per path. *)
Ltac each_handler H :=
  simpl in H;
  repeat (destruct H as [<-|H]); [..|done];
  split_paths.

(** Closes a membership in a list given by its elements, with [tac] on
    each element. *)
Ltac each_member H tac :=
  repeat (apply elem_of_cons in H as [H|H]; [tac|]);
  try (by apply elem_of_nil in H).

(** Rewrites [H] with the store's answers recorded on the path. *)
Ltac use_answers H :=
  simpl in H;
  repeat match goal with
    | Heq : ?x = _ |- _ =>
        lazymatch Heq with
        | H => fail
        | _ => match type of H with context [x] => rewrite Heq in H end
        end
    end;
  simpl in H.

Ltac use_answers_goal :=
  simpl;
  repeat match goal with
    | Heq : ?x = _ |- context [?x] => rewrite Heq
    end;
  simpl.

(** Brings together two recorded answers to the same call. *)
Ltac merge_answers :=
  simplify_eq;
  repeat match goal with
    | H1 : ?x = _, H2 : ?x = _ |- _ => rewrite H1 in H2; simplify_eq
    end.

(** A user id of length other than 0 is not the empty string. *)
Ltac destruct_userId :=
  match goal with
  | H : (String.length ?s =? 0)%nat = false |- ?s <> _ =>
      intros ->; discriminate H
  end.

(** What every handler keeps on every path. *)
Lemma handler_discipline en c r h :
  In h allHandlers ->
  (forall e, e ∈ envelopes (trace (h en c r)) ->
     responseWrites (trace (h en c r)) = [EvRespond e]) /\
  forallb staticError (envelopes (trace (h en c r))) = true /\
  errorsLogged None (trace (h en c r)) = true /\
  (forall p, outcome (h en c r) = Panicked p ->
     envelopes (trace (h en c r)) = [] /\
     (p = "interface conversion: interface {} is not string" ->
      storeCalls (trace (h en c r)) = [] /\ responseWrites (trace (h en c r)) = [])) /\
  (forall e, e ∈ envelopes (trace (h en c r)) -> isErrorEnvelope e = false ->
     exists cl call rest,
       storeCalls (trace (h en c r)) = (cl, call) :: rest /\
       answerFailed en cl call = false) /\
  (forall cl call, (cl, call) ∈ storeCalls (trace (h en c r)) ->
     answerFailed en cl call = true -> isWait call = false ->
     forallb isErrorEnvelope (envelopes (trace (h en c r))) = true) /\
  (authCalls (trace (h en c r)) = [] \/
   authCalls (trace (h en c r)) = [(consoleId c, consoleKey c, firstUserId r)] /\
   firstUserId r <> "") /\
  (length (sessions (trace (h en c r))) <= 1)%nat.
Proof.
  intros Hh. each_handler Hh.
  all: split; [intros env0 Hin; each_member Hin ltac:(subst; reflexivity)|].
  all: split; [reflexivity|].
  all: split; [reflexivity|].
  all: split;
    [intros p0 Hp;
     first [discriminate
           | injection Hp as <-; split;
             [reflexivity|first [discriminate|intros _; split; reflexivity]]]|].
  all: split.
  all: try (intros env0 Hin He; each_member Hin ltac:(subst; try discriminate);
            first [discriminate
                  | eexists _, _, _; split; [reflexivity|]; by use_answers_goal]).
  all: try reflexivity.
  all: split;
    [intros cl0 call0 Hin Hf Hw;
     each_member Hin ltac:(injection Hin as -> ->; use_answers Hf; simpl in Hw;
                           first [discriminate | reflexivity])|].
  all: split; [|simpl; lia].
  all: first [by left
             | right; unfold firstUserId; use_answers_goal;
               split; [reflexivity|by destruct_userId]].
Qed.

(** ** What every handler keeps *)

(** X1: a handler answers at most once: when an envelope is written, it is
    the only write on the response writer in the whole run. *)
Theorem envelope_is_the_only_write en c r h e :
  In h allHandlers ->
  e ∈ envelopes (trace (h en c r)) ->
  responseWrites (trace (h en c r)) = [EvRespond e].
Proof. intros Hh. by apply (handler_discipline en c r h Hh). Qed.

Lemma envelope_is_the_only_write_witness :
  responseWrites (trace (createBucketHandler Demo.env Demo.console
                           (Demo.request Demo.asAlice "bucket docs"))) =
    [EvRespond SuccessEnvelope].
Proof.
  apply (envelope_is_the_only_write Demo.env Demo.console
           (Demo.request Demo.asAlice "bucket docs") createBucketHandler
           SuccessEnvelope).
  - simpl. tauto.
  - vm_compute. constructor.
Defined.

(** X2: the message of an error envelope is one of sixteen fixed texts:
    nothing of the request, of the auth node's answer or of the store's
    error reaches the caller. *)
Theorem error_messages_are_static en c r h :
  In h allHandlers ->
  forallb staticError (envelopes (trace (h en c r))) = true.
Proof. intros Hh. by apply (handler_discipline en c r h Hh). Qed.

Lemma error_messages_are_static_witness :
  forallb staticError
    (envelopes (trace (createBucketHandler Outage.env Demo.console
                         (Demo.request Demo.asAlice "bucket docs")))) = true.
Proof.
  apply (error_messages_are_static Outage.env Demo.console
           (Demo.request Demo.asAlice "bucket docs") createBucketHandler).
  simpl. tauto.
Defined.

(** X3: an error envelope is never written without its cause being
    logged: the event right before it is an error log line. *)
Theorem error_envelope_follows_error_log en c r h :
  In h allHandlers ->
  errorsLogged None (trace (h en c r)) = true.
Proof. intros Hh. by apply (handler_discipline en c r h Hh). Qed.

Lemma error_envelope_follows_error_log_witness :
  errorsLogged None
    (trace (createBucketHandler Outage.env Demo.console
              (Demo.request Demo.asAlice "bucket docs"))) = true.
Proof.
  apply (error_envelope_follows_error_log Outage.env Demo.console
           (Demo.request Demo.asAlice "bucket docs") createBucketHandler).
  simpl. tauto.
Defined.

(** X4: a handler that panics has written no envelope; when the panic is
    that of a type assertion on a request field, it has not reached the
    store and has written nothing at all on the response writer. *)
Theorem panic_leaves_no_envelope en c r h p :
  In h allHandlers ->
  outcome (h en c r) = Panicked p ->
  envelopes (trace (h en c r)) = [] /\
  (p = "interface conversion: interface {} is not string" ->
   storeCalls (trace (h en c r)) = [] /\ responseWrites (trace (h en c r)) = []).
Proof. intros Hh. by apply (handler_discipline en c r h Hh). Qed.

Lemma panic_leaves_no_envelope_witness :
  envelopes (trace (getObjectListHandler Demo.env Demo.console
                      (Demo.request Demo.asAlice "bucket docs"))) = [] /\
  ("interface conversion: interface {} is not string" =
     "interface conversion: interface {} is not string" ->
   storeCalls (trace (getObjectListHandler Demo.env Demo.console
                        (Demo.request Demo.asAlice "bucket docs"))) = [] /\
   responseWrites (trace (getObjectListHandler Demo.env Demo.console
                            (Demo.request Demo.asAlice "bucket docs"))) = []).
Proof.
  apply (panic_leaves_no_envelope Demo.env Demo.console
           (Demo.request Demo.asAlice "bucket docs") getObjectListHandler
           "interface conversion: interface {} is not string").
  - simpl. tauto.
  - reflexivity.
Defined.

(** X5: a success or data envelope is written only after the store was
    called and the first call of the request came back without an error. *)
Theorem answer_implies_store_success en c r h e :
  In h allHandlers ->
  e ∈ envelopes (trace (h en c r)) ->
  isErrorEnvelope e = false ->
  exists cl call rest,
    storeCalls (trace (h en c r)) = (cl, call) :: rest /\
    answerFailed en cl call = false.
Proof. intros Hh. by apply (handler_discipline en c r h Hh). Qed.

Lemma answer_implies_store_success_witness :
  exists cl call rest,
    storeCalls (trace (createBucketHandler Demo.env Demo.console
                         (Demo.request Demo.asAlice "bucket docs"))) =
      (cl, call) :: rest /\
    answerFailed Demo.env cl call = false.
Proof.
  apply (answer_implies_store_success Demo.env Demo.console
           (Demo.request Demo.asAlice "bucket docs") createBucketHandler
           SuccessEnvelope).
  - simpl. tauto.
  - vm_compute. constructor.
  - reflexivity.
Defined.



(** X7: a handler asks the auth node at most once per request, and then
    with the console's own id and key and the first value of the request's
    userId parameter, which is not empty; it builds at most one client
    session. *)
Theorem one_auth_lookup_per_request en c r h :
  In h allHandlers ->
  (authCalls (trace (h en c r)) = [] \/
   authCalls (trace (h en c r)) = [(consoleId c, consoleKey c, firstUserId r)] /\
   firstUserId r <> "") /\
  (length (sessions (trace (h en c r))) <= 1)%nat.
Proof. intros Hh. by apply (handler_discipline en c r h Hh). Qed.

Lemma one_auth_lookup_per_request_witness :
  (authCalls (trace (getObjectHandler Demo.env Demo.console
                       (Demo.request Demo.asAlice "object docs/a.txt"))) = [] \/
   authCalls (trace (getObjectHandler Demo.env Demo.console
                       (Demo.request Demo.asAlice "object docs/a.txt"))) =
     [(consoleId Demo.console, consoleKey Demo.console,
       firstUserId (Demo.request Demo.asAlice "object docs/a.txt"))] /\
   firstUserId (Demo.request Demo.asAlice "object docs/a.txt") <> "") /\
  (length (sessions (trace (getObjectHandler Demo.env Demo.console
                              (Demo.request Demo.asAlice "object docs/a.txt")))) <= 1)%nat.
Proof.
  apply (one_auth_lookup_per_request Demo.env Demo.console
           (Demo.request Demo.asAlice "object docs/a.txt") getObjectHandler).
  simpl. tauto.
Defined.

(** ** Whose credentials reach the store *)

(** X8: in the seven handlers that build their client from the requesting
    user's keys, every store call is made by the client built from the
    console's region and endpoint and the key pair the auth node gave for
    the request's (non-empty) user id. *)
Theorem per_user_calls_carry_user_keys en c r h cl call :
  In h perUserHandlers ->
  (cl, call) ∈ storeCalls (trace (h en c r)) ->
  firstUserId r <> "" /\
  exists k,
    auth_AdminGetCaps en (consoleId c) (consoleKey c) (firstUserId r) = inr k /\
    cl = userClient c k.
Proof.
  intros Hh. simpl in Hh.
  repeat (destruct Hh as [<-|Hh]); [..|done].
  all: split_paths; intros Hin.
  all: each_member Hin ltac:(
    injection Hin as -> ->; unfold firstUserId;
    match goal with Heq : default [] _ = _ |- _ => rewrite Heq end;
    split; [by destruct_userId|eexists; split; [eassumption|reflexivity]]).
Qed.

Lemma per_user_calls_carry_user_keys_witness :
  firstUserId (Demo.request Demo.asAlice "bucket docs") <> "" /\
  exists k,
    auth_AdminGetCaps Demo.env (consoleId Demo.console) (consoleKey Demo.console)
      (firstUserId (Demo.request Demo.asAlice "bucket docs")) = inr k /\
    Demo.clientOfAlice = userClient Demo.console k.
Proof.
  apply (per_user_calls_carry_user_keys Demo.env Demo.console
           (Demo.request Demo.asAlice "bucket docs") createBucketHandler
           Demo.clientOfAlice (CallCreateBucket {| bBucket := Some "docs" |})).
  - simpl. tauto.
  - vm_compute. constructor.
Defined.

(** X9: the folder and ACL handlers that go through [prepareHandler] look
    at nothing but the body: two requests with the same body get the same
    run, whatever their userId; the auth node is never asked, and every
    store call is made by the client of the fixed credentials. *)
Theorem prepared_handlers_ignore_the_caller en c c' r r' h name args msg :
  In (h, name, args, msg) preparedHandlers ->
  Body r = Body r' ->
  h en c r = h en c' r' /\
  authCalls (trace (h en c r)) = [] /\
  forall cl call, (cl, call) ∈ storeCalls (trace (h en c r)) -> cl = preparedClient.
Proof.
  intros Hh Hb. simpl in Hh.
  repeat (destruct Hh as [[= <- <- <- <-]|Hh]); [..|done].
  all: split;
    [unfold createFolderHandler, getBucketAclHandler, setBucketAclHandler,
       getObjectAclHandler, setObjectAclHandler, prepareHandler;
     rewrite Hb; reflexivity|].
  all: clear Hb; split_paths.
  all: split; [reflexivity|].
  all: intros cl call Hin; each_member Hin ltac:(by injection Hin as -> ->).
Qed.

Lemma prepared_handlers_ignore_the_caller_witness :
  setBucketAclHandler Demo.env Demo.console (Demo.request Demo.asAlice "bucket docs") =
    setBucketAclHandler Demo.env Demo.console (Demo.request Demo.asMallory "bucket docs") /\
  authCalls (trace (setBucketAclHandler Demo.env Demo.console
                      (Demo.request Demo.asAlice "bucket docs"))) = [] /\
  forall cl call,
    (cl, call) ∈ storeCalls (trace (setBucketAclHandler Demo.env Demo.console
                                      (Demo.request Demo.asAlice "bucket docs"))) ->
    cl = preparedClient.
Proof.
  apply (prepared_handlers_ignore_the_caller Demo.env Demo.console Demo.console
           (Demo.request Demo.asAlice "bucket docs")
           (Demo.request Demo.asMallory "bucket docs")
           setBucketAclHandler "setBucketAclHandler" ["bucketName"]
           "set bucket acl failed!!!").
  - simpl. tauto.
  - reflexivity.
Defined.

(** ** Listings *)





(** X12: the input of the list call is read off the four decoded strings:
    the bucket is always set, an empty prefix or startAfter is left unset,
    and the number of keys is parsed from maxKeys, or from the default
    constant when maxKeys is empty. *)
Theorem listObjects_input en c r cl i :
  (cl, CallListObjectsV2 i) ∈ storeCalls (trace (getObjectListHandler en c r)) ->
  exists bucketName prefix startAfter maxKeys,
    Unmarshal en (fst (Body r)) !! "bucketName" = Some (JString bucketName) /\
    Unmarshal en (fst (Body r)) !! "prefix" = Some (JString prefix) /\
    Unmarshal en (fst (Body r)) !! "startAfter" = Some (JString startAfter) /\
    Unmarshal en (fst (Body r)) !! "maxKeys" = Some (JString maxKeys) /\
    i = listInput en bucketName prefix startAfter maxKeys.
Proof.
  split_paths; intros Hin.
  all: each_member Hin ltac:(
    injection Hin as -> ->;
    repeat match goal with
      | H : (0 <? String.length ?s)%nat = _ |- _ =>
          destruct s; simpl in H; try discriminate H; clear H
      end;
    eexists _, _, _, _; repeat split; unfold listInput;
    repeat case_decide; try discriminate; try congruence;
    repeat match goal with H : ParseInt _ = _ |- _ => rewrite H end;
    reflexivity).
Qed.

Lemma listObjects_input_witness :
  exists bucketName prefix startAfter maxKeys,
    Unmarshal Demo.env (fst (Body (Demo.request Demo.asAlice "list docs, maxKeys abc")))
      !! "bucketName" = Some (JString bucketName) /\
    Unmarshal Demo.env (fst (Body (Demo.request Demo.asAlice "list docs, maxKeys abc")))
      !! "prefix" = Some (JString prefix) /\
    Unmarshal Demo.env (fst (Body (Demo.request Demo.asAlice "list docs, maxKeys abc")))
      !! "startAfter" = Some (JString startAfter) /\
    Unmarshal Demo.env (fst (Body (Demo.request Demo.asAlice "list docs, maxKeys abc")))
      !! "maxKeys" = Some (JString maxKeys) /\
    {| loBucket := Some "docs"; loPrefix := None; loStartAfter := None;
       loMaxKeys := Some 0 |} =
      listInput Demo.env bucketName prefix startAfter maxKeys.
Proof.
  apply (listObjects_input Demo.env Demo.console
           (Demo.request Demo.asAlice "list docs, maxKeys abc") Demo.clientOfAlice).
  vm_compute. constructor.
Defined.

(** ** The order of store calls *)

(** X13: the wait for a bucket to disappear is only started after the
    delete call for that same bucket, by the same client, came back without
    an error; the two are then the only store calls of the request. *)
Theorem deleteBucket_wait_follows_delete en c r cl i :
  (cl, CallWaitUntilBucketNotExists i) ∈
    storeCalls (trace (deleteBucketHandler en c r)) ->
  storeCalls (trace (deleteBucketHandler en c r)) =
    [(cl, CallDeleteBucket i); (cl, CallWaitUntilBucketNotExists i)] /\
  s3_DeleteBucket en cl i = None.
Proof.
  split_paths; intros Hin.
  all: each_member Hin ltac:(simplify_eq; by split).
Qed.

Lemma deleteBucket_wait_follows_delete_witness :
  storeCalls (trace (deleteBucketHandler Demo.env Demo.console
                       (Demo.request Demo.asAlice "bucket docs"))) =
    [(Demo.clientOfAlice, CallDeleteBucket {| bBucket := Some "docs" |});
     (Demo.clientOfAlice, CallWaitUntilBucketNotExists {| bBucket := Some "docs" |})] /\
  s3_DeleteBucket Demo.env Demo.clientOfAlice {| bBucket := Some "docs" |} = None.
Proof.
  apply (deleteBucket_wait_follows_delete Demo.env Demo.console
           (Demo.request Demo.asAlice "bucket docs") Demo.clientOfAlice
           {| bBucket := Some "docs" |}).
  vm_compute. right. constructor.
Defined.

(** X14: an object is only fetched after the probe of that same object, by
    the same client, came back without an error; the two are then the only
    store calls of the request. *)
Theorem getObject_fetch_follows_probe en c r cl i :
  (cl, CallGetObject i) ∈ storeCalls (trace (getObjectHandler en c r)) ->
  storeCalls (trace (getObjectHandler en c r)) =
    [(cl, CallHeadObject i); (cl, CallGetObject i)] /\
  exists headOutput, s3_HeadObject en cl i = inr headOutput.
Proof.
  split_paths; intros Hin.
  all: each_member Hin ltac:(
    first [by simplify_eq | simplify_eq; split; [reflexivity|eauto]]).
Qed.

Lemma getObject_fetch_follows_probe_witness :
  storeCalls (trace (getObjectHandler Demo.env Demo.console
                       (Demo.request Demo.asAlice "object docs/a.txt"))) =
    [(Demo.clientOfAlice, CallHeadObject {| oBucket := Some "docs"; oKey := Some "a.txt" |});
     (Demo.clientOfAlice, CallGetObject {| oBucket := Some "docs"; oKey := Some "a.txt" |})] /\
  exists headOutput,
    s3_HeadObject Demo.env Demo.clientOfAlice
      {| oBucket := Some "docs"; oKey := Some "a.txt" |} = inr headOutput.
Proof.
  apply (getObject_fetch_follows_probe Demo.env Demo.console
           (Demo.request Demo.asAlice "object docs/a.txt") Demo.clientOfAlice
           {| oBucket := Some "docs"; oKey := Some "a.txt" |}).
  vm_compute. right. constructor.
Defined.

(** ** Streams *)

(** X15: once the uploaded file is opened, closing it is the last thing
    the upload handler does, on every path: also when the credential
    lookup panics or fails and when the store refuses the object. *)
Theorem putObject_closes_file en c r form bucketName bs objectName os file :
  MultipartForm r = Some form ->
  Value form !! "bucketName" = Some (bucketName :: bs) ->
  Value form !! "objectName" = Some (objectName :: os) ->
  FormFile form "file" = inr file ->
  last (trace (putObjectHandler en c r)) = Some (EvClose "file").
Proof.
  intros Hf Hb Ho Hfile. unfold putObjectHandler.
  rewrite Hf. run_unfold. simpl. rewrite Hb, Ho. simpl. rewrite Hfile.
  simpl. rewrite app_comm_cons. apply last_snoc.
Qed.

Lemma putObject_closes_file_witness :
  last (trace (putObjectHandler Demo.env Demo.console (Upload.request ∅))) =
    Some (EvClose "file").
Proof.
  apply (putObject_closes_file Demo.env Demo.console (Upload.request ∅) Upload.form
           "docs" [] "a.txt" [] "hello");
    reflexivity.
Defined.

(** X16: when the fetch comes back without a body, as a failed fetch
    does, the download handler panics where it defers closing the body: it
    writes nothing on the response writer, not even the error envelope the
    branch below would write. *)
Theorem getObject_fetch_without_body_panics en c r cl i :
  (cl, CallGetObject i) ∈ storeCalls (trace (getObjectHandler en c r)) ->
  fst (s3_GetObject en cl i) ≫= goBody = None ->
  outcome (getObjectHandler en c r) = Panicked nilPanic /\
  responseWrites (trace (getObjectHandler en c r)) = [].
Proof.
  split_paths; intros Hin Hb.
  all: each_member Hin ltac:(
    first [by simplify_eq
          | simplify_eq; use_answers Hb; use_answers Hb;
            first [discriminate | by split]]).
Qed.

Lemma getObject_fetch_without_body_panics_witness :
  outcome (getObjectHandler Outage.env Demo.console
             (Demo.request Demo.asAlice "object docs/a.txt")) = Panicked nilPanic /\
  responseWrites (trace (getObjectHandler Outage.env Demo.console
                           (Demo.request Demo.asAlice "object docs/a.txt"))) = [].
Proof.
  apply (getObject_fetch_without_body_panics Outage.env Demo.console
           (Demo.request Demo.asAlice "object docs/a.txt") Demo.clientOfAlice
           {| oBucket := Some "docs"; oKey := Some "a.txt" |}).
  - vm_compute. right. constructor.
  - reflexivity.
Defined.

(** X17: when the fetch comes back with a body, closing it is the last
    thing the download handler does, on every path: after the copy, after
    the error envelope of a failed fetch, and when the probe gave no size
    and the handler panics between the headers. *)
Theorem getObject_closes_body en c r cl i data :
  (cl, CallGetObject i) ∈ storeCalls (trace (getObjectHandler en c r)) ->
  fst (s3_GetObject en cl i) ≫= goBody = Some data ->
  last (trace (getObjectHandler en c r)) = Some (EvClose "responseData").
Proof.
  split_paths; intros Hin Hb.
  all: each_member Hin ltac:(
    first [by simplify_eq
          | simplify_eq; use_answers Hb; use_answers Hb;
            first [discriminate | reflexivity]]).
Qed.

Lemma getObject_closes_body_witness :
  last (trace (getObjectHandler Demo.env Demo.console
                 (Demo.request Demo.asAlice "object docs/a.txt"))) =
    Some (EvClose "responseData").
Proof.
  apply (getObject_closes_body Demo.env Demo.console
           (Demo.request Demo.asAlice "object docs/a.txt") Demo.clientOfAlice
           {| oBucket := Some "docs"; oKey := Some "a.txt" |} "hello").
  - vm_compute. right. constructor.
  - reflexivity.
Defined.

(** ** The shared preparation of the folder and ACL handlers *)

(** Where the presence loop stops: at a name that is absent, after names
    that are all keys. *)
Lemma missingParam_split (req : gmap string JValue) (args : list string) arg :
  missingParam req args = Some arg ->
  exists before after,
    args = before ++ arg :: after /\
    req !! arg = None /\
    forall a, a ∈ before -> is_Some (req !! a).
Proof.
  induction args as [|x args IH]; [discriminate|]. simpl.
  destruct (req !! x) eqn:Hx.
  - intros Hm. destruct (IH Hm) as (before & after & -> & Hn & Hall).
    exists (x :: before), after. split; [done|]. split; [done|].
    intros a [->|Ha]%elem_of_cons; eauto.
  - intros [= <-]. exists [], args. split; [done|]. split; [done|].
    intros a Ha. by apply elem_of_nil in Ha.
Qed.

(** X18: [prepareHandler] reports the first name of [args], in the order
    given, that is not a key of the decoded body: every name before it is
    a key. *)
Theorem missingParam_first (req : gmap string JValue) (args : list string) arg :
  missingParam req args = Some arg ->
  exists before after,
    args = before ++ arg :: after /\
    req !! arg = None /\
    forall a, a ∈ before -> is_Some (req !! a).
Proof. apply missingParam_split. Qed.

Lemma missingParam_first_witness :
  exists before after,
    ["bucketName"; "folderName"; "parentName"] = before ++ "parentName" :: after /\
    (<[ "folderName" := JString "f/" ]> {[ "bucketName" := JString "docs" ]}
     : gmap string JValue) !! "parentName" = None /\
    forall a, a ∈ before ->
      is_Some ((<[ "folderName" := JString "f/" ]> {[ "bucketName" := JString "docs" ]}
                : gmap string JValue) !! a).
Proof.
  apply (missingParam_first
           (<[ "folderName" := JString "f/" ]> {[ "bucketName" := JString "docs" ]})
           ["bucketName"; "folderName"; "parentName"] "parentName").
  vm_compute. reflexivity.
Defined.

(** X19: [prepareHandler] hands out a client and the decoded body exactly
    when the body is read, every required name is a key of its decoded
    form (whatever the value, a JSON null or a number included) and the
    session is built; the client is then the one of the fixed credentials
    and the map the decoded body. *)
Theorem prepareHandler_succeeds_iff en r args cl req :
  outcome (prepareHandler en r args) = Returned (inr (cl, req)) <->
  snd (Body r) = None /\
  (forall a, a ∈ args -> is_Some (Unmarshal en (fst (Body r)) !! a)) /\
  session_NewSession en prepareConfig = None /\
  cl = preparedClient /\
  req = Unmarshal en (fst (Body r)).
Proof.
  unfold prepareHandler, NewSession. destruct (Body r) as [body [e|]]; simpl.
  { split; [discriminate|]. by intros [? _]. }
  destruct (missingParam (Unmarshal en body) args) as [arg|] eqn:Hm; simpl.
  - split; [discriminate|]. intros (_ & Hall & _).
    destruct (missingParam_split _ _ _ Hm) as (before & after & -> & Hn & _).
    destruct (Hall arg) as [v Hv]; [|congruence].
    apply elem_of_app. right. by apply elem_of_cons; left.
  - run_unfold. simpl. destruct (session_NewSession en prepareConfig) eqn:Hs; simpl.
    + split; [discriminate|]. by intros (_ & _ & ? & _).
    + split.
      * intros [= <- <-]. split; [done|]. split; [|done].
        intros a Ha. by apply (missingParam_none _ _ _ Hm).
      * intros (_ & _ & _ & -> & ->). reflexivity.
Qed.

(** ** Folders *)

(** X20: whenever [createFolderHandler] reaches the store, it does so
    once: one PutObject by the fixed client, in the bucket named by the
    body, under the key made of parentName followed directly by
    folderName, with no body; no call looks at the parent first. *)
Theorem createFolder_key en c r cl call :
  (cl, call) ∈ storeCalls (trace (createFolderHandler en c r)) ->
  exists bucketName folderName parentName,
    Unmarshal en (fst (Body r)) !! "bucketName" = Some (JString bucketName) /\
    Unmarshal en (fst (Body r)) !! "folderName" = Some (JString folderName) /\
    Unmarshal en (fst (Body r)) !! "parentName" = Some (JString parentName) /\
    storeCalls (trace (createFolderHandler en c r)) =
      [(preparedClient,
        CallPutObject {| poBucket := Some bucketName;
                         poKey := Some (parentName +:+ folderName);
                         poBody := None |})].
Proof.
  split_paths; intros Hin.
  all: each_member Hin ltac:(simplify_eq; eexists _, _, _; repeat split).
Qed.

Lemma createFolder_key_witness :
  exists bucketName folderName parentName,
    Unmarshal Folder.env (fst (Body (Demo.request ∅ "folder docs/a/b/")))
      !! "bucketName" = Some (JString bucketName) /\
    Unmarshal Folder.env (fst (Body (Demo.request ∅ "folder docs/a/b/")))
      !! "folderName" = Some (JString folderName) /\
    Unmarshal Folder.env (fst (Body (Demo.request ∅ "folder docs/a/b/")))
      !! "parentName" = Some (JString parentName) /\
    storeCalls (trace (createFolderHandler Folder.env Demo.console
                         (Demo.request ∅ "folder docs/a/b/"))) =
      [(preparedClient,
        CallPutObject {| poBucket := Some bucketName;
                         poKey := Some (parentName +:+ folderName);
                         poBody := None |})].
Proof.
  apply (createFolder_key Folder.env Demo.console (Demo.request ∅ "folder docs/a/b/")
           preparedClient
           (CallPutObject {| poBucket := Some "docs"; poKey := Some "a/b/";
                             poBody := None |})).
  vm_compute. constructor.
Defined.

(** In that deployment the key is a/b/. *)
Example createFolder_a_b :
  storeCalls (trace (createFolderHandler Folder.env Demo.console
                       (Demo.request ∅ "folder docs/a/b/"))) =
    [(preparedClient,
      CallPutObject {| poBucket := Some "docs"; poKey := Some "a/b/";
                       poBody := None |})].
Proof. reflexivity. Qed.

(** ** ACL reads *)

(** X21: whenever a get-ACL handler has issued its store call, it answers
    with the store's ACL representation as it came, or with its failure
    message when the call failed. *)
Theorem getAcl_verbatim en c r cl i j :
  ((cl, CallGetBucketAcl i) ∈ storeCalls (trace (getBucketAclHandler en c r)) ->
   envelopes (trace (getBucketAclHandler en c r)) =
     [match s3_GetBucketAcl en cl i with
      | inr output => DataEnvelope (PAcl output)
      | inl _ => ErrorEnvelope "get bucket acl failed!!!"
      end]) /\
  ((cl, CallGetObjectAcl j) ∈ storeCalls (trace (getObjectAclHandler en c r)) ->
   envelopes (trace (getObjectAclHandler en c r)) =
     [match s3_GetObjectAcl en cl j with
      | inr output => DataEnvelope (PAcl output)
      | inl _ => ErrorEnvelope "get object acl failed!!!"
      end]).
Proof.
  split.
  all: split_paths; intros Hin.
  all: each_member Hin ltac:(
    merge_answers; first [done | by use_answers_goal | congruence]).
Qed.

Lemma getAcl_verbatim_witness :
  envelopes (trace (getBucketAclHandler Demo.env Demo.console
                      (Demo.request ∅ "object docs/a.txt"))) =
    [match s3_GetBucketAcl Demo.env preparedClient {| bBucket := Some "docs" |} with
     | inr output => DataEnvelope (PAcl output)
     | inl _ => ErrorEnvelope "get bucket acl failed!!!"
     end] /\
  envelopes (trace (getObjectAclHandler Demo.env Demo.console
                      (Demo.request ∅ "object docs/a.txt"))) =
    [match s3_GetObjectAcl Demo.env preparedClient
             {| oBucket := Some "docs"; oKey := Some "a.txt" |} with
     | inr output => DataEnvelope (PAcl output)
     | inl _ => ErrorEnvelope "get object acl failed!!!"
     end].
Proof.
  split.
  - apply (getAcl_verbatim Demo.env Demo.console (Demo.request ∅ "object docs/a.txt")
             preparedClient {| bBucket := Some "docs" |}
             {| oBucket := Some "docs"; oKey := Some "a.txt" |}).
    vm_compute. constructor.
  - apply (getAcl_verbatim Demo.env Demo.console (Demo.request ∅ "object docs/a.txt")
             preparedClient {| bBucket := Some "docs" |}
             {| oBucket := Some "docs"; oKey := Some "a.txt" |}).
    vm_compute. constructor.
Defined.

(** ** getCaller *)

Lemma append_cons a (s t : string) : String a s +:+ t = String a (s +:+ t).
Proof. reflexivity. Qed.

Lemma append_snoc (acc s : string) c :
  (acc +:+ String c "") +:+ s = acc +:+ String c s.
Proof.
  induction acc as [|a acc IH]; [reflexivity|].
  rewrite !append_cons. by rewrite IH.
Qed.

Lemma append_empty (s : string) : s +:+ "" = s.
Proof.
  induction s as [|a s IH]; [reflexivity|]. rewrite append_cons. by rewrite IH.
Qed.

Lemma lastSegment_noDot s acc :
  noDot s = true -> lastSegment s acc = acc +:+ s.
Proof.
  revert acc. induction s as [|a s IH]; intros acc; simpl.
  - intros _. by rewrite append_empty.
  - intros [Ha Hs]%andb_prop. apply negb_true_iff in Ha. rewrite Ha.
    rewrite (IH _ Hs). apply append_snoc.
Qed.

Lemma lastSegment_after_dot pre name acc :
  lastSegment (pre +:+ "." +:+ name) acc = lastSegment name "".
Proof.
  revert acc. induction pre as [|a pre IH]; intros acc.
  - reflexivity.
  - rewrite append_cons. simpl. destruct (Ascii.eqb a "."); apply IH.
Qed.

(** X22: [getCaller] returns what follows the last dot of the name the
    runtime reports for the calling function: for a name that ends in a
    dot and a dot-free method name, that method name. *)
Theorem getCaller_last_segment pre name :
  noDot name = true ->
  getCaller (pre +:+ "." +:+ name) = name.
Proof.
  intros Hn. unfold getCaller. rewrite lastSegment_after_dot.
  by rewrite (lastSegment_noDot _ _ Hn).
Qed.

Lemma getCaller_last_segment_witness :
  getCaller ("github.com/chubaofs/chubaofs/console.Console" +:+ "." +:+
             "getBucketAclHandler") = "getBucketAclHandler".
Proof.
  apply (getCaller_last_segment "github.com/chubaofs/chubaofs/console.Console"
           "getBucketAclHandler").
  reflexivity.
Defined.
